(** * split_video.py: a shallow embedding and its verification

    The module [Split/split_video.py] asks [ffprobe] for the duration of a
    media file, divides it by the requested number of segments and runs
    [ffmpeg] once per segment.  The embedding below keeps the two functions
    of the module, [get_video_duration] and [split_video], as computations
    in a small state-and-exception monad whose state is the chronological
    trace of everything the process does to the outside world: child
    processes it runs, random numbers it draws, lines it prints.  The
    outside world may refuse: a child may fail to start, a line may fail
    to print; and the arithmetic is Python's, on binary64 numbers, with
    the [OverflowError] of an integer too large for a [float]. *)

From Stdlib Require Import ZArith List String Ascii Bool Lia.
From Stdlib Require Import QArith Qfield.
From Stdlib Require Import DecimalString DecimalZ.
From Stdlib Require Import SpecFloat.
Import ListNotations.

Local Open Scope string_scope.
Local Open Scope Z_scope.

(** ** Python strings

    A [str] is modelled by the [string] of its UTF-8 bytes: ASCII text is
    itself, and a character beyond ASCII is the two, three or four bytes
    of its encoding (the pipes of the children are read as UTF-8 text). *)

Module PyStr.

(** [str(n)] for an [int]: decimal digits, a leading minus sign for
    negative numbers. *)
Definition str (n : Z) : string := NilZero.string_of_int (Z.to_int n).

(** The characters for which [str.isspace] holds, by their encodings:
    U+0009..U+000D, U+001C..U+001F and U+0020 on one byte; U+0085 and
    U+00A0 on two; U+1680, U+2000..U+200A, U+2028, U+2029, U+202F, U+205F
    and U+3000 on three. *)
Definition is_space1 (a : ascii) : bool :=
  let k := nat_of_ascii a in
  ((9 <=? k)%nat && (k <=? 13)%nat) || ((28 <=? k)%nat && (k <=? 32)%nat).

Definition is_space2 (a b : ascii) : bool :=
  let k := nat_of_ascii a in
  let l := nat_of_ascii b in
  (k =? 194)%nat && ((l =? 133)%nat || (l =? 160)%nat).

Definition is_space3 (a b c : ascii) : bool :=
  let k := nat_of_ascii a in
  let l := nat_of_ascii b in
  let m := nat_of_ascii c in
  ((k =? 225)%nat && (l =? 154)%nat && (m =? 128)%nat)
  || ((k =? 226)%nat && (l =? 128)%nat
      && (((128 <=? m)%nat && (m <=? 138)%nat)
          || (m =? 168)%nat || (m =? 169)%nat || (m =? 175)%nat))
  || ((k =? 226)%nat && (l =? 129)%nat && (m =? 159)%nat)
  || ((k =? 227)%nat && (l =? 128)%nat && (m =? 128)%nat).

(** What follows the whitespace character at the front of [s], if there
    is one. *)
Definition head_space (s : string) : option string :=
  match s with
  | EmptyString => None
  | String a s1 =>
      if is_space1 a then Some s1
      else
        match s1 with
        | EmptyString => None
        | String b s2 =>
            if is_space2 a b then Some s2
            else
              match s2 with
              | EmptyString => None
              | String c s3 => if is_space3 a b c then Some s3 else None
              end
        end
  end.

(** [s] is one whitespace character. *)
Definition is_space_char (s : string) : bool :=
  match head_space s with
  | Some EmptyString => true
  | _ => false
  end.

(** [s.lstrip()] *)
Fixpoint lstrip (s : string) : string :=
  match s with
  | EmptyString => EmptyString
  | String a s1 =>
      if is_space1 a then lstrip s1
      else
        match s1 with
        | EmptyString => s
        | String b s2 =>
            if is_space2 a b then lstrip s2
            else
              match s2 with
              | EmptyString => s
              | String c s3 => if is_space3 a b c then lstrip s3 else s
              end
        end
  end.

(** [s.rstrip()]: what is left of a string whose tail is already
    stripped is dropped when it is one whitespace character. *)
Fixpoint rstrip (s : string) : string :=
  match s with
  | EmptyString => EmptyString
  | String a s' =>
      let r := String a (rstrip s') in
      if is_space_char r then EmptyString else r
  end.

(** [s.strip()] *)
Definition strip (s : string) : string := rstrip (lstrip s).

(** Truth value of a string: [not s] holds exactly for the empty string. *)
Definition is_empty (s : string) : bool :=
  match s with EmptyString => true | String _ _ => false end.

(** [s.rfind(c)] for a one-character needle: the highest index at which
    [c] occurs, or [-1]. *)
Fixpoint rfind_from (c : ascii) (s : string) (i last : Z) : Z :=
  match s with
  | EmptyString => last
  | String a s' => rfind_from c s' (i + 1) (if Ascii.eqb a c then i else last)
  end.

Definition rfind (c : ascii) (s : string) : Z := rfind_from c s 0 (-1).

(** The slices [s[:n]] and [s[n:]] for [0 <= n]. *)
Fixpoint slice_to (n : nat) (s : string) : string :=
  match n, s with
  | S n', String a s' => String a (slice_to n' s')
  | _, _ => EmptyString
  end.

Fixpoint slice_from (n : nat) (s : string) : string :=
  match n, s with
  | S n', String _ s' => slice_from n' s'
  | _, _ => s
  end.

(** A string given by its bytes. *)
Definition of_bytes (l : list nat) : string :=
  string_of_list_ascii (map ascii_of_nat l).

End PyStr.

(** ** os.path.splitext

    [genericpath._splitext(p, sep, altsep, extsep)] as the standard library
    writes it: the extension starts at the last dot of the last path
    component, unless that component consists of leading dots only. *)

Module OsPath.
Import PyStr.

(** The [while filenameIndex < dotIndex] loop: [true] when some character
    in [filenameIndex .. dotIndex-1] is not the extension separator. *)
Fixpoint has_name_before_dot (fuel : nat) (p : string) (extsep : ascii)
         (filenameIndex : Z) : bool :=
  match fuel with
  | O => false
  | S fuel' =>
      match String.get (Z.to_nat filenameIndex) p with
      | Some c =>
          if Ascii.eqb c extsep
          then has_name_before_dot fuel' p extsep (filenameIndex + 1)
          else true
      | None => true
      end
  end.

Definition _splitext (p : string) (sep : ascii) (altsep : option ascii)
           (extsep : ascii) : string * string :=
  let sepIndex := rfind sep p in
  let sepIndex :=
    match altsep with
    | Some a => Z.max sepIndex (rfind a p)
    | None => sepIndex
    end in
  let dotIndex := rfind extsep p in
  if (sepIndex <? dotIndex)
     && has_name_before_dot (Z.to_nat (dotIndex - (sepIndex + 1))) p extsep
          (sepIndex + 1)
  then (slice_to (Z.to_nat dotIndex) p, slice_from (Z.to_nat dotIndex) p)
  else (p, EmptyString).

(** [posixpath.splitext] *)
Definition splitext (p : string) : string * string :=
  _splitext p "/"%char None "."%char.

End OsPath.

(** ** The Python runtime

    What the module takes from the interpreter and is not code of the
    repository: the [float] type with the two operations applied to it,
    the conversions [float(str)] and [float(int)], and [repr] of a string
    (it appears in the message of a failed [float(str)]). *)

Class Runtime (F : Type) : Type := {
  (** [float(s)]; [None] when the call raises [ValueError] *)
  float_of_str : string -> option F;
  (** whether converting the [int] operand of [/] or [*] raises
      [OverflowError] (int too large to convert to float) *)
  int_overflows : Z -> bool;
  (** the value of the conversion when it does not overflow *)
  float_of_int : Z -> F;
  (** [x / y] for a non-zero [y] *)
  float_truediv : F -> F -> F;
  (** [x * y] *)
  float_mul : F -> F -> F;
  (** [repr(s)] *)
  str_repr : string -> string;
  (** zero converts, and so does every integer no larger in absolute
      value than one that converts *)
  int_overflows_zero : int_overflows 0 = false;
  int_overflows_smaller :
    forall i n : Z,
      Z.abs i <= Z.abs n -> int_overflows n = false -> int_overflows i = false
}.

(** ** The outside world *)

Record CompletedProcess : Type := {
  returncode : Z;
  stdout : string;
  stderr : string
}.

(** An exception raised inside [subprocess.run] or [print], by its class
    and message: [FileNotFoundError] or [PermissionError] when a child
    cannot be started, [UnicodeDecodeError] when its output is not text,
    [UnicodeEncodeError] or [OSError] when a line cannot be written. *)
Record failure : Type := {
  class_name : string;
  message : string
}.

(** What [subprocess.run] comes to. *)
Inductive outcome : Type :=
| Completed (cp : CompletedProcess)
| Failed (f : failure).

(** The two command lines the module builds.  [Ffprobe f] stands for
    [['ffprobe', '-v', 'error', '-show_entries', 'format=duration', '-of',
    'default=noprint_wrappers=1:nokey=1', f]] and [Ffmpeg ss f t out] for
    [['ffmpeg', '-y', '-ss', str(ss), '-i', f, '-t', str(t), '-c', 'copy',
    out]]. *)
Inductive command (F : Type) : Type :=
| Ffprobe (input_file : string)
| Ffmpeg (ss : F) (input_file : string) (t : F) (output_file : string).
Arguments Ffprobe {F} input_file.
Arguments Ffmpeg {F} ss input_file t output_file.

(** A child that was asked for with what came of it, a number drawn, a
    line handed to [print] with the exception it raised, if any. *)
Inductive event (F : Type) : Type :=
| Spawn (cmd : command F) (o : outcome)
| Randint (a b r : Z)
| Print (line : string) (error : option failure).
Arguments Spawn {F} cmd o.
Arguments Randint {F} a b r.
Arguments Print {F} line error.

(** Events in the order in which they happened. *)
Definition trace (F : Type) : Type := list (event F).

(** The environment answers every request as a function of the history:
    what running a child comes to, the raw number the generator yields,
    whether a line can be printed. *)
Record World (F : Type) : Type := {
  ffprobe_run : trace F -> string -> outcome;
  ffmpeg_run : trace F -> F -> string -> F -> string -> outcome;
  random_raw : trace F -> Z;
  print_run : trace F -> string -> option failure
}.
Arguments ffprobe_run {F} w _ _.
Arguments ffmpeg_run {F} w _ _ _ _ _.
Arguments random_raw {F} w _.
Arguments print_run {F} w _ _.

(** ** Exceptions and the monad *)

(** The exceptions of the module's own statements, and [External] for
    one raised inside [subprocess.run] or [print]. *)
Inductive exn : Type :=
| ValueError (msg : string)
| ZeroDivisionError
| OverflowError
| External (f : failure).

(** The class of an exception, by name. *)
Definition exn_class (e : exn) : string :=
  match e with
  | ValueError _ => "ValueError"
  | ZeroDivisionError => "ZeroDivisionError"
  | OverflowError => "OverflowError"
  | External f => class_name f
  end.

Inductive result (A : Type) : Type :=
| Ok (a : A)
| Raise (e : exn).
Arguments Ok {A} a.
Arguments Raise {A} e.

Definition M (F A : Type) : Type := trace F -> result A * trace F.

Definition ret {F A} (a : A) : M F A := fun t => (Ok a, t).

Definition raise {F A} (e : exn) : M F A := fun t => (Raise e, t).

Definition bind {F A B} (m : M F A) (k : A -> M F B) : M F B :=
  fun t =>
    match m t with
    | (Ok a, t') => k a t'
    | (Raise e, t') => (Raise e, t')
    end.

Declare Scope py_scope.
Delimit Scope py_scope with py.
Notation "x <- m ;; k" := (bind m (fun x => k))
  (at level 61, m at next level, right associativity) : py_scope.
Notation "m ;;; k" := (bind m (fun _ => k))
  (at level 61, right associativity) : py_scope.

(** [for x in l: body(x)] *)
Fixpoint for_ {F A} (l : list A) (body : A -> M F unit) : M F unit :=
  match l with
  | [] => ret tt
  | x :: l' => bind (body x) (fun _ => for_ l' body)
  end.

(** [range(n)] *)
Definition range (n : Z) : list Z := map Z.of_nat (seq 0 (Z.to_nat n)).

(** ** The module *)

Section Program.

Context {F : Type} {RT : Runtime F}.
Variable w : World F.

Local Open Scope py_scope.

(** [subprocess.run(argv, ...)]: the child runs to completion and its
    [CompletedProcess] comes back whatever the exit status (the module
    never passes [check=True]); when the child cannot be run the call
    raises. *)
Definition subprocess_run (cmd : command F) : M F CompletedProcess :=
  fun t =>
    let o :=
      match cmd with
      | Ffprobe f => ffprobe_run w t f
      | Ffmpeg ss f d out => ffmpeg_run w t ss f d out
      end in
    (match o with
     | Completed cp => Ok cp
     | Failed f => Raise (External f)
     end,
     (t ++ [Spawn cmd o])%list).

(** [random.randint(a, b)], which is [a + randbelow(b - a + 1)]. *)
Definition randint (a b : Z) : M F Z :=
  fun t =>
    let r := a + random_raw w t mod (b - a + 1) in
    (Ok r, (t ++ [Randint a b r])%list).

(** [print(line)] *)
Definition print (line : string) : M F unit :=
  fun t =>
    let error := print_run w t line in
    (match error with
     | None => Ok tt
     | Some f => Raise (External f)
     end,
     (t ++ [Print line error])%list).

(** [float(s)] *)
Definition float_error_message (s : string) : string :=
  "could not convert string to float: " ++ str_repr s.

Definition float (s : string) : M F F :=
  match float_of_str s with
  | Some x => ret x
  | None => raise (ValueError (float_error_message s))
  end.

(** [x / n] with a [float] on the left and an [int] on the right: the
    integer is converted, then a zero divisor is refused. *)
Definition truediv (x : F) (n : Z) : M F F :=
  if int_overflows n then raise OverflowError
  else if n =? 0 then raise ZeroDivisionError
  else ret (float_truediv x (float_of_int n)).

(** [i * x] with an [int] on the left and a [float] on the right. *)
Definition mul_int (i : Z) (x : F) : M F F :=
  if int_overflows i then raise OverflowError
  else ret (float_mul (float_of_int i) x).

(** The three non-ASCII prefixes of the messages, byte for byte. *)
Definition mark_failed : string := PyStr.of_bytes [195; 162; 197; 146]%nat.
Definition mark_creating : string :=
  PyStr.of_bytes [196; 159; 197; 184; 226; 128; 157; 194; 167]%nat.
Definition mark_done : string :=
  PyStr.of_bytes [195; 162; 197; 147; 226; 128; 166]%nat.

Definition ffprobe_failed_message (diagnostic : string) : string :=
  mark_failed ++ " ffprobe failed. stderr: " ++ diagnostic.

Definition get_video_duration (input_file : string) : M F F :=
  result <- subprocess_run (Ffprobe input_file) ;;
  let raw_output := PyStr.strip (stdout result) in
  if PyStr.is_empty raw_output
  then raise (ValueError (ffprobe_failed_message (PyStr.strip (stderr result))))
  else float raw_output.

Definition output_name (base_name : string) (rand_id i : Z) : string :=
  base_name ++ "_" ++ PyStr.str rand_id ++ "_" ++ PyStr.str (i + 1) ++ ".mp4".

Definition creating_message (i split_count : Z) (output_file : string)
  : string :=
  mark_creating ++ " Creating segment " ++ PyStr.str (i + 1) ++ "/"
    ++ PyStr.str split_count ++ ": " ++ output_file.

Definition done_message (split_count rand_id : Z) : string :=
  mark_done ++ " Done. Created " ++ PyStr.str split_count
    ++ " segments with ID " ++ PyStr.str rand_id ++ ".".

(** The body of the [for] loop of [split_video]. *)
Definition segment_step (input_file base_name : string) (rand_id : Z)
           (split_count : Z) (segment_duration : F) (i : Z) : M F unit :=
  start_time <- mul_int i segment_duration ;;
  let output_file := output_name base_name rand_id i in
  print (creating_message i split_count output_file) ;;;
  _ <- subprocess_run
         (Ffmpeg start_time input_file segment_duration output_file) ;;
  ret tt.

Definition split_video (input_file : string) (split_count : Z) : M F unit :=
  duration <- get_video_duration input_file ;;
  segment_duration <- truediv duration split_count ;;
  let '(base_name, ext) := OsPath.splitext input_file in
  rand_id <- randint 1000 9999 ;;
  for_ (range split_count)
       (segment_step input_file base_name rand_id split_count
                     segment_duration) ;;;
  print (done_message split_count rand_id).

End Program.

(** ** Reading a trace *)

Section Observations.

Context {F : Type}.

(** One extraction request, as the fields of its command line. *)
Record extraction : Type := {
  start_time : F;
  source : string;
  segment_duration : F;
  output_file : string
}.

(** The extractions requested, oldest first. *)
Fixpoint extractions (t : trace F) : list extraction :=
  match t with
  | [] => []
  | Spawn (Ffmpeg ss f d out) _ :: t' =>
      {| start_time := ss; source := f; segment_duration := d;
         output_file := out |} :: extractions t'
  | _ :: t' => extractions t'
  end.

(** The run identifiers drawn, oldest first. *)
Fixpoint draws (t : trace F) : list Z :=
  match t with
  | [] => []
  | Randint _ _ r :: t' => r :: draws t'
  | _ :: t' => draws t'
  end.

(** What the process did, without what the world answered. *)
Inductive action : Type :=
| Ran (cmd : command F)
| Drew (a b r : Z)
| Printed (line : string).

Definition action_of (e : event F) : action :=
  match e with
  | Spawn cmd _ => Ran cmd
  | Randint a b r => Drew a b r
  | Print line _ => Printed line
  end.

Definition actions (t : trace F) : list action := map action_of t.

End Observations.
Arguments extraction F : clear implicits.
Arguments action F : clear implicits.

(** ** Binary64 arithmetic

    Python's [float]: IEEE 754 double precision, every operation rounded
    to nearest, ties to even. *)

Module Binary64.

(** Precision and exponent bound of the double format. *)
Definition prec : Z := 53.
Definition emax : Z := 1024.

(** The double nearest to an integer. *)
Definition of_Z (z : Z) : spec_float :=
  binary_normalize prec emax z 0 false.

(** The least integer that rounds to [2^1024]: converting it, or a
    larger one, raises [OverflowError]. *)
Definition overflow_bound : Z := 2 ^ 1024 - 2 ^ 970.

Definition overflows (z : Z) : bool := overflow_bound <=? Z.abs z.

Definition div (x y : spec_float) : spec_float := SFdiv prec emax x y.
Definition mul (x y : spec_float) : spec_float := SFmul prec emax x y.

(** Zero or a finite non-zero number. *)
Definition is_finite (x : spec_float) : bool :=
  match x with
  | S754_zero _ | S754_finite _ _ _ => true
  | _ => false
  end.

(** The sign bit: set for negative numbers, for [-0.0] and for [-inf]. *)
Definition sign_bit (x : spec_float) : bool :=
  match x with
  | S754_zero s | S754_infinity s | S754_finite s _ _ => s
  | S754_nan => false
  end.

(** The rational a finite double stands for. *)
Definition value (x : spec_float) : Q :=
  match x with
  | S754_finite s m e =>
      ((if s then inject_Z (Zneg m) else inject_Z (Zpos m))
       * Qpower (2 # 1) e)%Q
  | _ => 0%Q
  end.

(** Zero converts, and so does every integer no larger in absolute value
    than one that converts. *)
Definition overflows_zero : overflows 0 = false := eq_refl.

Definition overflows_smaller (i n : Z) (Hle : Z.abs i <= Z.abs n)
           (Hn : overflows n = false) : overflows i = false :=
  proj2 (Z.leb_gt overflow_bound (Z.abs i))
        (Z.le_lt_trans _ _ _ Hle
           (proj1 (Z.leb_gt overflow_bound (Z.abs n)) Hn)).

Definition Binary64Runtime (parse : string -> option spec_float)
           (repr : string -> string) : Runtime spec_float :=
  {| float_of_str := parse;
     int_overflows := overflows;
     float_of_int := of_Z;
     float_truediv := div;
     float_mul := mul;
     str_repr := repr;
     int_overflows_zero := overflows_zero;
     int_overflows_smaller := overflows_smaller |}.

End Binary64.

(** ** Exact arithmetic

    Rationals in the place of [float], with their own division and
    product and no integer too large: the arithmetic in which the sum of
    the segment lengths is stated. *)

Definition QRuntime (parse : string -> option Q) (repr : string -> string)
  : Runtime Q :=
  {| float_of_str := parse;
     int_overflows := fun _ => false;
     float_of_int := inject_Z;
     float_truediv := Qdiv;
     float_mul := Qmult;
     str_repr := repr;
     int_overflows_zero := eq_refl;
     int_overflows_smaller := fun _ _ _ _ => eq_refl |}.

(** Sum of a list of rationals. *)
Definition Qsum (l : list Q) : Q := fold_right Qplus 0%Q l.

(** ** Worlds to run examples in

    Stand-ins for the two library functions of [Runtime] that are not
    arithmetic, and scripted environments. *)

Module Demo.

Definition digit_of (c : ascii) : option Z :=
  let k := nat_of_ascii c in
  if ((48 <=? k)%nat && (k <=? 57)%nat)%bool
  then Some (Z.of_nat (k - 48)) else None.

(** Reads the digits in front of [s]: accumulated value, number of digits
    read, what is left. *)
Fixpoint read_digits (s : string) (acc : Z) (count : nat)
  : Z * nat * string :=
  match s with
  | EmptyString => (acc, count, s)
  | String c s' =>
      match digit_of c with
      | Some k => read_digits s' (10 * acc + k) (S count)
      | None => (acc, count, s)
      end
  end.

Definition parse_unsigned (s : string) : option Q :=
  let '(ip, n1, rest) := read_digits s 0 0%nat in
  match rest with
  | EmptyString =>
      if (0 <? n1)%nat then Some (inject_Z ip) else None
  | String c rest' =>
      if Ascii.eqb c "."%char then
        let '(v, n2, rest2) := read_digits rest' ip 0%nat in
        if PyStr.is_empty rest2 && (0 <? n1 + n2)%nat
        then Some (Qmake v (Pos.pow 10 (Pos.of_nat n2) ))
        else None
      else None
  end.

(** Plain decimal numerals, [-12.5] or [600.000000]: the part of
    [float(str)] that the examples in exact arithmetic need. *)
Definition parse_decimal (s : string) : option Q :=
  match s with
  | String "-"%char s' => option_map Qopp (parse_unsigned s')
  | _ => parse_unsigned s
  end.

(** The few texts that the examples in binary64 need [float(str)] for. *)
Definition parse_double (s : string) : option spec_float :=
  if String.eqb s "600.000000" then Some (Binary64.of_Z 600)
  else if String.eqb s "1.000000" then Some (Binary64.of_Z 1)
  else if String.eqb s "0.000000" then Some (S754_zero false)
  else if String.eqb s "inf" then Some (S754_infinity false)
  else None.

Definition quote (s : string) : string := "'" ++ s ++ "'".

Definition runtime : Runtime Q := QRuntime parse_decimal quote.

Definition runtime64 : Runtime spec_float :=
  Binary64.Binary64Runtime parse_double quote.

Definition line (s : string) : string := s ++ String "010"%char "".

(** [ffprobe] prints [out] and [err] and exits with 0; every [ffmpeg]
    exits with [status]; the generator yields [raw]; every line is
    printed. *)
Definition world {F : Type} (out err : string) (status : Z) (raw : Z)
  : World F :=
  {| ffprobe_run := fun _ _ =>
       Completed {| returncode := 0; stdout := out; stderr := err |};
     ffmpeg_run := fun _ _ _ _ _ =>
       Completed {| returncode := status; stdout := ""; stderr := "" |};
     random_raw := fun _ => raw;
     print_run := fun _ _ => None |}.


(** A ten-minute clip, healthy tools, run identifier 1234. *)
Definition ten_minutes : World Q := world (line "600.000000") "" 0 234.

(** The same clip with an [ffmpeg] that fails every time. *)
Definition ten_minutes_failing : World Q :=
  world (line "600.000000") "" 1 234.

(** A generator that yields [raw], around the healthy ten-minute clip. *)
Definition ten_minutes_drawing (raw : Z) : World Q :=
  world (line "600.000000") "" 0 raw.

(** [ffprobe] cannot open the file: nothing on standard output, a
    diagnostic on standard error. *)
Definition unreadable {F : Type} : World F :=
  world (line " ") (line "clip.mkv: No such file or directory") 1 0.

(** [ffprobe] finds no duration in the container. *)
Definition no_duration {F : Type} : World F := world (line "N/A") "" 0 0.


(** Clips for runs in binary64: ten minutes, one second, and a stream
    whose duration [ffprobe] reports as [inf]. *)
Definition ten_minutes64 : World spec_float :=
  world (line "600.000000") "" 0 234.
Definition endless64 : World spec_float := world (line "inf") "" 0 234.

(** A clip of no length. *)
Definition empty_clip64 : World spec_float :=
  world (line "0.000000") "" 0 234.

(** [ffprobe] prints a no-break space and a newline, and nothing else. *)
Definition blank_output {F : Type} : World F :=
  world (String "194"%char (String "160"%char (String "010"%char "")))
        (line "clip.mkv: Invalid data found when processing input") 0 0.

(** What the probe of [clip.mkv] records and returns in these worlds. *)
Definition probe_of_clip {F : Type} : event F :=
  Spawn (Ffprobe "clip.mkv")
        (Completed {| returncode := 0; stdout := line "600.000000";
                      stderr := "" |}).

Definition clip_duration : Q := 600000000 # 1000000.

Definition clip_run (n : Z) : result unit * trace Q :=
  @split_video Q runtime ten_minutes "clip.mkv" n [].

Definition clip_run64 (w : World spec_float) (n : Z)
  : result unit * trace spec_float :=
  @split_video spec_float runtime64 w "clip.mkv" n [].

End Demo.

(** ** Vocabulary of the proofs

    Closed forms that the lemmas below relate to the program. *)

Section Vocabulary.

Context {F : Type} {RT : Runtime F}.

(** The extractions can be read off the actions alone. *)
Fixpoint requested (l : list (action F)) : list (extraction F) :=
  match l with
  | [] => []
  | Ran (Ffmpeg ss f d out) :: l' =>
      {| start_time := ss; source := f; segment_duration := d;
         output_file := out |} :: requested l'
  | _ :: l' => requested l'
  end.

Fixpoint drawn (l : list (action F)) : list Z :=
  match l with
  | [] => []
  | Drew _ _ r :: l' => r :: drawn l'
  | _ :: l' => drawn l'
  end.

(** The value [get_video_duration] makes of what running [ffprobe] came
    to. *)
Definition duration_of (o : outcome) : result F :=
  match o with
  | Failed f => Raise (External f)
  | Completed cp =>
      let raw_output := PyStr.strip (stdout cp) in
      if PyStr.is_empty raw_output
      then Raise (ValueError
                    (ffprobe_failed_message (PyStr.strip (stderr cp))))
      else match float_of_str raw_output with
           | Some x => Ok x
           | None => Raise (ValueError (float_error_message raw_output))
           end
  end.

(** The request the loop makes for index [i]. *)
Definition job (input_file base_name : string) (rand_id : Z) (sd : F)
           (i : Z) : extraction F :=
  {| start_time := float_mul (float_of_int i) sd;
     source := input_file;
     segment_duration := sd;
     output_file := output_name base_name rand_id i |}.

(** The two things one iteration does, in order. *)
Definition step_actions (input_file base_name : string) (rand_id n : Z)
           (sd : F) (i : Z) : list (action F) :=
  [Printed (creating_message i n (output_name base_name rand_id i));
   Ran (Ffmpeg (float_mul (float_of_int i) sd) input_file sd
               (output_name base_name rand_id i))].

(** The identifier a run draws when the generator is asked at [t]. *)
Definition run_id_at (w : World F) (t : trace F) : Z :=
  1000 + random_raw w t mod 9000.

(** Whether [1000 + k] prints with four characters. *)
Definition four_digits_from (k : nat) : bool :=
  Nat.eqb (String.length (PyStr.str (1000 + Z.of_nat k))) 4.

(** A world in which every [ffmpeg] can be started and every line can be
    printed; what the children return is left free. *)
Definition obliging (w : World F) : Prop :=
  (forall t ss f d out, exists cp, ffmpeg_run w t ss f d out = Completed cp)
  /\ (forall t line, print_run w t line = None).

End Vocabulary.

(** ** Vocabulary for text *)

(** Made of whitespace characters only. *)
Fixpoint all_space (s : string) : bool :=
  match s with
  | EmptyString => true
  | String a s1 =>
      if PyStr.is_space1 a then all_space s1
      else
        match s1 with
        | EmptyString => false
        | String b s2 =>
            if PyStr.is_space2 a b then all_space s2
            else
              match s2 with
              | EmptyString => false
              | String c s3 => PyStr.is_space3 a b c && all_space s3
              end
        end
  end.

(** [s] starts with a whitespace character. *)
Definition starts_with_space (s : string) : bool :=
  match PyStr.head_space s with
  | Some _ => true
  | None => false
  end.

(** [s] ends with a whitespace character. *)
Definition ends_with_space (s : string) : Prop :=
  exists p c : string, s = p ++ c /\ PyStr.is_space_char c = true.

(** Of sign [s] and not a NaN. *)
Definition signed (s : bool) (x : spec_float) : Prop :=
  x = S754_zero s \/ x = S754_infinity s
  \/ exists m e, x = S754_finite s m e.


(** The character [c] occurs in [s]. *)
Fixpoint occurs (c : ascii) (s : string) : bool :=
  match s with
  | EmptyString => false
  | String a s' => Ascii.eqb a c || occurs c s'
  end.

(** The part of a name after the base name, as [split_video] builds it. *)
Definition name_suffix (rand_id i : Z) : string :=
  "_" ++ PyStr.str rand_id ++ "_" ++ PyStr.str (i + 1) ++ ".mp4".

(** * Verification *)

Local Open Scope list_scope.

(** ** Traces *)

Section TraceFacts.

Context {F : Type}.

Lemma extractions_requested (t : trace F) :
  extractions t = requested (actions t).
Proof.
  induction t as [|e t IH]; simpl; [reflexivity|].
  destruct e as [[f|ss f d out] o|a b r|line err]; simpl; now rewrite IH.
Qed.

Lemma draws_drawn (t : trace F) : draws t = drawn (actions t).
Proof.
  induction t as [|e t IH]; simpl; [reflexivity|].
  destruct e as [[f|ss f d out] o|a b r|line err]; simpl; now rewrite IH.
Qed.

Lemma requested_app (l1 l2 : list (action F)) :
  requested (l1 ++ l2) = requested l1 ++ requested l2.
Proof.
  induction l1 as [|a l1 IH]; simpl; [reflexivity|].
  destruct a as [[f|ss f d out]|a b r|line]; simpl; now rewrite IH.
Qed.

Lemma drawn_app (l1 l2 : list (action F)) :
  drawn (l1 ++ l2) = drawn l1 ++ drawn l2.
Proof.
  induction l1 as [|a l1 IH]; simpl; [reflexivity|].
  destruct a as [[f|ss f d out]|a b r|line]; simpl; now rewrite IH.
Qed.

Lemma actions_app (t1 t2 : trace F) :
  actions (t1 ++ t2) = actions t1 ++ actions t2.
Proof. apply map_app. Qed.

End TraceFacts.

(** ** What a run does *)

Section RunFacts.

Context {F : Type} {RT : Runtime F}.
Variable w : World F.

Lemma get_video_duration_run (input_file : string) (t : trace F) :
  get_video_duration w input_file t =
  (duration_of (ffprobe_run w t input_file),
   t ++ [Spawn (Ffprobe input_file) (ffprobe_run w t input_file)]).
Proof.
  unfold get_video_duration, duration_of, bind, subprocess_run.
  destruct (ffprobe_run w t input_file) as [cp|f]; [|reflexivity].
  destruct (PyStr.is_empty _); [reflexivity|].
  unfold float. now destruct (float_of_str _).
Qed.

Lemma requested_steps input_file base_name rand_id n sd (l : list Z) :
  requested (flat_map (step_actions input_file base_name rand_id n sd) l)
  = map (job input_file base_name rand_id sd) l.
Proof. induction l as [|i l IH]; simpl; [reflexivity|]. now rewrite IH. Qed.

(** The loop: it stops at the first line that cannot be printed or
    child that cannot be started, and otherwise goes through the list. *)
Lemma for_segment_steps input_file base_name rand_id n sd (l : list Z) :
  (forall i, In i l -> int_overflows i = false) ->
  forall t : trace F,
  exists (r : result unit) (body : trace F) (k : nat),
    for_ l (segment_step w input_file base_name rand_id n sd) t
    = (r, t ++ body)
    /\ requested (actions body)
       = map (job input_file base_name rand_id sd) (firstn k l)
    /\ drawn (actions body) = []
    /\ (r = Ok tt ->
        actions body
        = flat_map (step_actions input_file base_name rand_id n sd) l)
    /\ (forall e, r = Raise e -> exists f, e = External f)
    /\ (obliging w -> r = Ok tt).
Proof.
  set (step := segment_step w input_file base_name rand_id n sd).
  induction l as [|i l IH]; intros Hconv t.
  - exists (Ok tt), [], 0%nat. simpl. unfold ret.
    rewrite app_nil_r. repeat split; try reflexivity. discriminate.
  - assert (Hi : int_overflows i = false) by (apply Hconv; now left).
    assert (Hl : forall j, In j l -> int_overflows j = false)
      by (intros j Hj; apply Hconv; now right).
    simpl for_. unfold bind at 1. unfold step at 1, segment_step.
    unfold bind at 1, mul_int. rewrite Hi. unfold ret at 1.
    unfold bind at 1, print.
    set (line := creating_message i n (output_name base_name rand_id i)).
    destruct (print_run w t line) as [f|] eqn:Hprint.
    + exists (Raise (External f)), [Print line (Some f)], 0%nat.
      split; [reflexivity|]. split; [reflexivity|]. split; [reflexivity|].
      split; [discriminate|]. split.
      * intros e [= <-]. now exists f.
      * intros [_ Hp]. rewrite Hp in Hprint. discriminate.
    + unfold bind at 1, subprocess_run.
      set (cmd := Ffmpeg (float_mul (float_of_int i) sd) input_file sd
                         (output_name base_name rand_id i)).
      set (t1 := t ++ [Print line None]).
      destruct (ffmpeg_run w t1 (float_mul (float_of_int i) sd) input_file sd
                           (output_name base_name rand_id i))
        as [cp|f] eqn:Hrun.
      * unfold ret at 1.
        destruct (IH Hl (t1 ++ [Spawn cmd (Completed cp)]))
          as (r & body & k & Hloop & Hreq & Hdrawn & Hok & Herr & Hobl).
        exists r, (Print line None :: Spawn cmd (Completed cp) :: body), (S k).
        split; [|split; [|split; [|split; [|split]]]].
        -- rewrite Hloop. subst t1. rewrite <- !app_assoc. reflexivity.
        -- cbn [actions map action_of requested firstn]. subst cmd.
           cbn [requested]. fold (actions body). rewrite Hreq. reflexivity.
        -- cbn [actions map action_of drawn]. subst cmd. cbn [drawn].
           exact Hdrawn.
        -- intro H. cbn [actions map action_of flat_map step_actions app].
           fold (actions body). rewrite (Hok H). reflexivity.
        -- exact Herr.
        -- exact Hobl.
      * exists (Raise (External f)),
               [Print line None; Spawn cmd (Failed f)], 1%nat.
        split; [|split; [|split; [|split; [|split]]]].
        -- subst t1. rewrite <- app_assoc. reflexivity.
        -- reflexivity.
        -- reflexivity.
        -- discriminate.
        -- intros e [= <-]. now exists f.
        -- intros [Hf _].
           destruct (Hf t1 (float_mul (float_of_int i) sd) input_file sd
                        (output_name base_name rand_id i)) as (cp & Hcp).
           rewrite Hcp in Hrun. discriminate.
Qed.

Lemma firstn_map_prefix {A B : Type} (f : A -> B) (k : nat) (l : list A) :
  map f (firstn k l) = firstn k (map f l).
Proof. symmetry. apply firstn_map. Qed.

Lemma range_converts (n i : Z) :
  int_overflows n = false -> In i (range n) -> int_overflows i = false.
Proof.
  intros Hn Hi. apply (int_overflows_smaller i n); [|exact Hn].
  unfold range in Hi. apply in_map_iff in Hi as (k & <- & Hk).
  apply in_seq in Hk. lia.
Qed.

(** A run whose probe returned [d] and whose count is neither zero nor
    too large: the probe, the draw, a prefix of the iterations, and the
    summary when nothing went wrong before it. *)
Lemma split_video_past_division input_file n d t t1 :
  get_video_duration w input_file t = (Ok d, t1) ->
  n <> 0 ->
  int_overflows n = false ->
  let rand_id := run_id_at w t1 in
  let base_name := fst (OsPath.splitext input_file) in
  let sd := float_truediv d (float_of_int n) in
  exists (r : result unit) (body : trace F) (k : nat),
    split_video w input_file n t
    = (r, t1 ++ Randint 1000 9999 rand_id :: body)
    /\ requested (actions body)
       = map (job input_file base_name rand_id sd) (firstn k (range n))
    /\ drawn (actions body) = []
    /\ (r = Ok tt ->
        actions body
        = flat_map (step_actions input_file base_name rand_id n sd) (range n)
          ++ [Printed (done_message n rand_id)])
    /\ (forall e, r = Raise e -> exists f, e = External f)
    /\ (obliging w -> r = Ok tt).
Proof.
  intros Hprobe Hnz Hconv rand_id base_name sd.
  unfold split_video, bind at 1. rewrite Hprobe.
  unfold bind at 1, truediv. rewrite Hconv.
  destruct (Z.eqb_spec n 0) as [->|_]; [contradiction|].
  unfold ret at 1.
  destruct (OsPath.splitext input_file) as [base ext] eqn:Hsplit.
  cbn [fst] in base_name. subst base_name.
  unfold bind at 1, randint at 1.
  change (1000 + random_raw w t1 mod (9999 - 1000 + 1)) with rand_id.
  set (t2 := t1 ++ [Randint 1000 9999 rand_id]).
  destruct (for_segment_steps input_file base rand_id n sd (range n)
              (fun i => range_converts n i Hconv) t2)
    as (r & body & k & Hloop & Hreq & Hdrawn & Hok & Herr & Hobl).
  unfold bind at 1. fold sd. rewrite Hloop.
  destruct r as [[]|e].
  - unfold print.
    set (line := done_message n rand_id).
    set (t3 := t2 ++ body).
    exists (match print_run w t3 line with
            | None => Ok tt
            | Some f => Raise (External f)
            end),
           (body ++ [Print line (print_run w t3 line)]), k.
    split; [|split; [|split; [|split; [|split]]]].
    + subst t3 t2. rewrite <- !app_assoc. reflexivity.
    + rewrite actions_app, requested_app. cbn. rewrite app_nil_r. exact Hreq.
    + rewrite actions_app, drawn_app, Hdrawn. reflexivity.
    + intros _. rewrite actions_app, (Hok eq_refl). reflexivity.
    + intros e. destruct (print_run w t3 line) as [f|]; [|discriminate].
      intros [= <-]. now exists f.
    + intros Hw. destruct Hw as [_ Hp]. now rewrite Hp.
  - exists (Raise e), body, k.
    split; [|split; [|split; [|split; [|split]]]].
    + subst t2. rewrite <- app_assoc. reflexivity.
    + exact Hreq.
    + exact Hdrawn.
    + discriminate.
    + exact Herr.
    + exact Hobl.
Qed.

Lemma split_video_probe_fails input_file n e t t1 :
  get_video_duration w input_file t = (Raise e, t1) ->
  split_video w input_file n t = (Raise e, t1).
Proof. intro H. unfold split_video, bind. now rewrite H. Qed.

Lemma split_video_overflow input_file n d t t1 :
  get_video_duration w input_file t = (Ok d, t1) ->
  int_overflows n = true ->
  split_video w input_file n t = (Raise OverflowError, t1).
Proof.
  intros H Hn. unfold split_video, bind at 1. rewrite H.
  unfold bind, truediv. now rewrite Hn.
Qed.

Lemma split_video_zero input_file d t t1 :
  get_video_duration w input_file t = (Ok d, t1) ->
  split_video w input_file 0 t = (Raise ZeroDivisionError, t1).
Proof.
  intro H. unfold split_video, bind at 1. rewrite H.
  unfold bind, truediv. now rewrite int_overflows_zero.
Qed.

End RunFacts.

(** ** Strings and names *)

Section StringFacts.

Import PyStr.

Lemma length_append (a b : string) :
  String.length (a ++ b)%string = (String.length a + String.length b)%nat.
Proof. induction a as [|c a IH]; simpl; [reflexivity|]. now rewrite IH. Qed.

Lemma append_inv_head (s a b : string) :
  (s ++ a)%string = (s ++ b)%string -> a = b.
Proof.
  induction s as [|c s IH]; simpl; intro H; [exact H|].
  injection H as H. now apply IH.
Qed.

Lemma append_inv_tail (s : string) :
  forall a b : string, (a ++ s)%string = (b ++ s)%string -> a = b.
Proof.
  induction a as [|c a IH]; intros [|c' b] H; simpl in H.
  - reflexivity.
  - apply (f_equal String.length) in H. simpl in H.
    rewrite length_append in H. lia.
  - apply (f_equal String.length) in H. simpl in H.
    rewrite length_append in H. lia.
  - injection H as -> H. f_equal. now apply IH.
Qed.

Lemma slice_join (n : nat) :
  forall s : string, (slice_to n s ++ slice_from n s)%string = s.
Proof.
  induction n as [|n IH]; intros [|c s]; simpl; try reflexivity.
  now rewrite IH.
Qed.

(** The two halves [os.path.splitext] returns make up the path. *)
Lemma splitext_join (p : string) :
  (fst (OsPath.splitext p) ++ snd (OsPath.splitext p))%string = p.
Proof.
  unfold OsPath.splitext, OsPath._splitext.
  destruct (_ && _); simpl.
  - apply slice_join.
  - induction p as [|c p IH]; simpl; [reflexivity|]. now rewrite IH.
Qed.

Lemma to_int_proper (n : Z) :
  Z.to_int n <> Decimal.Pos Decimal.Nil
  /\ Z.to_int n <> Decimal.Neg Decimal.Nil.
Proof.
  destruct n as [|p|p]; simpl; split; try discriminate;
    intros [= H]; now apply (DecimalPos.Unsigned.to_uint_nonnil p).
Qed.

(** [str] on integers can be read back, so distinct integers print
    differently. *)
Lemma str_inj (n m : Z) : str n = str m -> n = m.
Proof.
  unfold str. intro H.
  apply DecimalZ.to_int_inj.
  destruct (to_int_proper n) as [Hn1 Hn2], (to_int_proper m) as [Hm1 Hm2].
  pose proof (NilZero.isi _ Hn1 Hn2) as Rn.
  pose proof (NilZero.isi _ Hm1 Hm2) as Rm.
  rewrite H in Rn. congruence.
Qed.

Lemma four_digits_table :
  forallb four_digits_from (seq 0 (Z.to_nat 9000)) = true.
Proof. vm_compute. reflexivity. Qed.

(** Every integer of [1000 .. 9999] prints with four characters. *)
Lemma str_four_digits (r : Z) :
  1000 <= r <= 9999 -> String.length (str r) = 4%nat.
Proof.
  intro Hr.
  pose proof (proj1 (forallb_forall _ _) four_digits_table
                (Z.to_nat (r - 1000))) as H.
  unfold four_digits_from in H.
  replace (1000 + Z.of_nat (Z.to_nat (r - 1000))) with r in H by lia.
  apply Nat.eqb_eq, H, in_seq. lia.
Qed.

Lemma output_name_inj (base_name : string) (rand_id i j : Z) :
  output_name base_name rand_id i = output_name base_name rand_id j ->
  i = j.
Proof.
  unfold output_name. intro H.
  do 4 apply append_inv_head in H.
  apply append_inv_tail, str_inj in H. lia.
Qed.

End StringFacts.

(** ** The run identifier and the loop indices *)

Section IndexFacts.

Lemma range_length (n : Z) : List.length (range n) = Z.to_nat n.
Proof. unfold range. now rewrite length_map, length_seq. Qed.

Lemma range_nth (n : Z) (i : nat) :
  (i < Z.to_nat n)%nat -> nth_error (range n) i = Some (Z.of_nat i).
Proof.
  intro H. unfold range.
  rewrite nth_error_map, nth_error_seq.
  destruct (Nat.ltb_spec i (Z.to_nat n)); [reflexivity|lia].
Qed.

Lemma range_nonpositive (n : Z) : n <= 0 -> range n = [].
Proof.
  intro H. unfold range. now replace (Z.to_nat n) with 0%nat by lia.
Qed.

Lemma NoDup_map_injective {A B : Type} (f : A -> B) (l : list A) :
  (forall a b, f a = f b -> a = b) -> NoDup l -> NoDup (map f l).
Proof.
  intros Hinj Hl. induction Hl as [|a l Hnotin Hl IH]; simpl.
  - constructor.
  - constructor; [|exact IH].
    intro Hin. apply in_map_iff in Hin as (b & Hb & Hin).
    apply Hinj in Hb. now subst b.
Qed.

Lemma range_NoDup (n : Z) : NoDup (range n).
Proof.
  unfold range. apply NoDup_map_injective.
  - intros a b. apply Nat2Z.inj.
  - apply seq_NoDup.
Qed.

Lemma run_id_at_range {F : Type} (w : World F) (t : trace F) :
  1000 <= run_id_at w t <= 9999.
Proof.
  unfold run_id_at.
  pose proof (Z.mod_pos_bound (random_raw w t) 9000). lia.
Qed.

End IndexFacts.

(** ** Runs that reach the loop *)

Section CompletedRuns.

Context {F : Type} {RT : Runtime F}.
Variable w : World F.

Lemma probe_trace input_file (r : result F) (t1 : trace F) :
  get_video_duration w input_file [] = (r, t1) ->
  t1 = [Spawn (Ffprobe input_file) (ffprobe_run w [] input_file)].
Proof. rewrite get_video_duration_run. now intros [= _ <-]. Qed.

Lemma firstn_in {A : Type} (k : nat) (x : A) :
  forall l : list A, In x (firstn k l) -> In x l.
Proof.
  induction k as [|k IH]; intros [|a l] H; simpl in H; try contradiction.
  destruct H as [->|H]; [now left|right; now apply IH].
Qed.

Lemma firstn_nth {A : Type} (k i : nat) (x : A) :
  forall l : list A,
    nth_error (firstn k l) i = Some x -> nth_error l i = Some x.
Proof.
  revert i. induction k as [|k IH]; intros i [|a l] H.
  - now destruct i.
  - now destruct i.
  - now destruct i.
  - destruct i as [|i]; simpl in *; [exact H|now apply IH].
Qed.

Lemma firstn_NoDup {A : Type} (k : nat) :
  forall l : list A, NoDup l -> NoDup (firstn k l).
Proof.
  induction k as [|k IH]; intros [|a l] H; simpl; try constructor.
  - intro Hin. apply firstn_in in Hin. now inversion H.
  - apply IH. now inversion H.
Qed.

(** Everything the claims need of a run whose probe returned [d] and
    whose count is neither zero nor too large for a [float]. *)
Lemma past_division input_file n d t1 :
  get_video_duration w input_file [] = (Ok d, t1) ->
  n <> 0 ->
  int_overflows n = false ->
  let final := split_video w input_file n [] in
  let rand_id := run_id_at w t1 in
  let base_name := fst (OsPath.splitext input_file) in
  let sd := float_truediv d (float_of_int n) in
  (exists k : nat,
     extractions (snd final)
     = map (job input_file base_name rand_id sd) (firstn k (range n)))
  /\ draws (snd final) = [rand_id]
  /\ (fst final = Ok tt ->
      actions (snd final)
      = Ran (Ffprobe input_file) :: Drew 1000 9999 rand_id
        :: flat_map (step_actions input_file base_name rand_id n sd) (range n)
        ++ [Printed (done_message n rand_id)]
      /\ extractions (snd final)
         = map (job input_file base_name rand_id sd) (range n))
  /\ (forall e, fst final = Raise e -> exists f, e = External f)
  /\ (obliging w -> fst final = Ok tt).
Proof.
  intros Hprobe Hnz Hconv final rand_id base_name sd.
  destruct (split_video_past_division w input_file n d [] t1 Hprobe Hnz Hconv)
    as (r & body & k & Hrun & Hreq & Hdrawn & Hok & Herr & Hobl).
  pose proof (probe_trace _ _ _ Hprobe) as Ht1.
  fold rand_id base_name sd in Hrun, Hreq, Hok.
  assert (Hactions :
    actions (snd final)
    = Ran (Ffprobe input_file) :: Drew 1000 9999 rand_id :: actions body).
  { subst final. rewrite Hrun. cbn [snd]. rewrite actions_app.
    rewrite Ht1 at 1. reflexivity. }
  assert (Hfst : fst final = r) by (subst final; now rewrite Hrun).
  rewrite Hfst. clearbody final. split; [|split; [|split; [|split]]].
  - exists k. rewrite extractions_requested, Hactions. cbn [requested].
    exact Hreq.
  - rewrite draws_drawn, Hactions. cbn [drawn]. now rewrite Hdrawn.
  - intro Hr. split.
    + rewrite Hactions, (Hok Hr). reflexivity.
    + rewrite extractions_requested, Hactions. cbn [requested].
      rewrite (Hok Hr), requested_app, requested_steps. cbn [requested].
      apply app_nil_r.
  - exact Herr.
  - exact Hobl.
Qed.

(** A run that stops at the probe or at the division requests nothing. *)
Lemma aborted_run input_file n :
  (forall d t1,
     get_video_duration w input_file [] = (Ok d, t1) ->
     n = 0 \/ int_overflows n = true) ->
  snd (split_video w input_file n [])
  = [Spawn (Ffprobe input_file) (ffprobe_run w [] input_file)]
  /\ extractions (snd (split_video w input_file n [])) = []
  /\ draws (snd (split_video w input_file n [])) = [].
Proof.
  intro H.
  destruct (get_video_duration w input_file []) as [[d|e] t1] eqn:Hprobe.
  - destruct (H d t1 eq_refl) as [->|Hover].
    + rewrite (split_video_zero w input_file d [] t1 Hprobe).
      now rewrite (probe_trace _ _ _ Hprobe).
    + rewrite (split_video_overflow w input_file n d [] t1 Hprobe Hover).
      now rewrite (probe_trace _ _ _ Hprobe).
  - rewrite (split_video_probe_fails w input_file n e [] t1 Hprobe).
    now rewrite (probe_trace _ _ _ Hprobe).
Qed.

Lemma job_nth input_file base_name rand_id sd n (k i : nat)
      (e : extraction F) :
  nth_error (map (job input_file base_name rand_id sd) (firstn k (range n))) i
  = Some e ->
  (i < Z.to_nat n)%nat
  /\ e = job input_file base_name rand_id sd (Z.of_nat i).
Proof.
  intro H. rewrite nth_error_map in H.
  destruct (nth_error (firstn k (range n)) i) as [j|] eqn:Hj;
    [|discriminate].
  apply firstn_nth in Hj.
  assert (Hi : (i < Z.to_nat n)%nat).
  { rewrite <- range_length. apply nth_error_Some. congruence. }
  split; [exact Hi|].
  rewrite (range_nth n i Hi) in Hj. simpl in H. congruence.
Qed.

Lemma range_in (n i : Z) : In i (range n) -> 0 <= i < n.
Proof.
  unfold range. intro H. apply in_map_iff in H as (k & <- & Hk).
  apply in_seq in Hk. lia.
Qed.

(** Where an extraction of a run comes from. *)
Lemma extraction_shape input_file n (e : extraction F) :
  In e (extractions (snd (split_video w input_file n []))) ->
  exists (d : F) (t1 : trace F) (i : Z),
    get_video_duration w input_file [] = (Ok d, t1)
    /\ 0 <= i < n
    /\ int_overflows n = false
    /\ draws (snd (split_video w input_file n [])) = [run_id_at w t1]
    /\ e = job input_file (fst (OsPath.splitext input_file))
               (run_id_at w t1) (float_truediv d (float_of_int n)) i.
Proof.
  intro Hin.
  destruct (get_video_duration w input_file []) as [[d|err] t1] eqn:Hprobe.
  - destruct (Z.eq_dec n 0) as [Hz|Hnz].
    + destruct (aborted_run input_file n) as (_ & Hnone & _).
      { intros; now left. }
      rewrite Hnone in Hin. contradiction.
    + destruct (int_overflows n) eqn:Hover.
      * destruct (aborted_run input_file n) as (_ & Hnone & _).
        { intros; now right. }
        rewrite Hnone in Hin. contradiction.
      * destruct (past_division input_file n d t1 Hprobe Hnz Hover)
          as ((k & Hcalls) & Hdraws & _).
        rewrite Hcalls in Hin. apply in_map_iff in Hin as (i & <- & Hi).
        apply firstn_in, range_in in Hi.
        exists d, t1, i. repeat split; try lia. exact Hdraws.
  - destruct (aborted_run input_file n) as (_ & Hnone & _).
    { intros d t Hd. congruence. }
    rewrite Hnone in Hin. contradiction.
Qed.

End CompletedRuns.

(** ** Naming, errors and control flow *)

Section Orchestration.

Context {F : Type} {RT : Runtime F}.

(** C1, as the code has it: whatever the world, the input path and the
    segment count, the output path of the extraction at position [i] is the
    input path without its extension, an underscore, the run identifier
    drawn in this run, an underscore, the 1-based segment number [i+1], and
    then the fixed suffix [.mp4]; the extension of the input path is split
    off and not used. *)
Theorem output_path_has_mp4_suffix
        (w : World F) (input_file : string) (split_count : Z)
        (i : nat) (e : extraction F) :
  nth_error (extractions (snd (split_video w input_file split_count []))) i
  = Some e ->
  exists rand_id : Z,
    draws (snd (split_video w input_file split_count [])) = [rand_id]
    /\ output_file e
       = (fst (OsPath.splitext input_file) ++ "_" ++ PyStr.str rand_id
            ++ "_" ++ PyStr.str (Z.of_nat i + 1) ++ ".mp4")%string
    /\ (fst (OsPath.splitext input_file)
          ++ snd (OsPath.splitext input_file))%string = input_file.
Proof.
  intro Hnth.
  assert (Hin : In e (extractions
                        (snd (split_video w input_file split_count [])))).
  { eapply nth_error_In. exact Hnth. }
  apply extraction_shape in Hin
    as (d & t1 & j & Hprobe & Hj & Hconv & Hdraws & _).
  assert (Hnz : split_count <> 0) by lia.
  destruct (past_division w input_file split_count d t1 Hprobe Hnz Hconv)
    as ((k & Hcalls) & _).
  rewrite Hcalls in Hnth. apply job_nth in Hnth as [_ ->].
  exists (run_id_at w t1). repeat split.
  - exact Hdraws.
  - apply splitext_join.
Qed.

(** C5: when [ffprobe] has run and what it wrote to its standard output
    is empty once stripped, [get_video_duration] raises the [ValueError]
    whose message ends with the stripped standard error of [ffprobe];
    [split_video] raises the same exception with the probe as the only
    thing that happened, so no extraction is requested. *)
Theorem empty_probe_output_aborts
        (w : World F) (input_file : string) (split_count : Z)
        (cp : CompletedProcess) :
  ffprobe_run w [] input_file = Completed cp ->
  PyStr.strip (stdout cp) = EmptyString ->
  let probe_error : exn :=
    ValueError (PyStr.of_bytes [195; 162; 197; 146]%nat
                  ++ " ffprobe failed. stderr: "
                  ++ PyStr.strip (stderr cp))%string in
  fst (get_video_duration w input_file []) = Raise probe_error
  /\ split_video w input_file split_count []
     = (Raise probe_error, [Spawn (Ffprobe input_file) (Completed cp)])
  /\ extractions (snd (split_video w input_file split_count [])) = [].
Proof.
  intros Hran Hempty probe_error.
  assert (Hprobe :
    get_video_duration w input_file []
    = (Raise probe_error, [Spawn (Ffprobe input_file) (Completed cp)])).
  { rewrite get_video_duration_run, Hran. unfold duration_of.
    now rewrite Hempty. }
  assert (Hrun :
    split_video w input_file split_count []
    = (Raise probe_error, [Spawn (Ffprobe input_file) (Completed cp)])).
  { now apply split_video_probe_fails. }
  split; [now rewrite Hprobe|]. split; [exact Hrun|now rewrite Hrun].
Qed.

(** C6, as the code has it: when [ffprobe] has run, its stripped standard
    output is not empty and [float] does not accept it,
    [get_video_duration] raises the [ValueError] of [float].  It is of
    the same class as the error raised for an empty output and differs
    from it by its message, whatever the diagnostic.  [split_video]
    raises the same exception with the probe as the only thing that
    happened, so no extraction is requested. *)
Theorem unparsable_probe_output_aborts
        (w : World F) (input_file : string) (split_count : Z)
        (cp : CompletedProcess) :
  ffprobe_run w [] input_file = Completed cp ->
  PyStr.strip (stdout cp) <> EmptyString ->
  float_of_str (PyStr.strip (stdout cp)) = None ->
  let format_error :=
    ValueError ("could not convert string to float: "
                  ++ str_repr (PyStr.strip (stdout cp)))%string in
  fst (get_video_duration w input_file []) = Raise format_error
  /\ (forall diagnostic : string,
        exn_class format_error
        = exn_class (ValueError (ffprobe_failed_message diagnostic))
        /\ format_error <> ValueError (ffprobe_failed_message diagnostic))
  /\ split_video w input_file split_count []
     = (Raise format_error, [Spawn (Ffprobe input_file) (Completed cp)])
  /\ extractions (snd (split_video w input_file split_count [])) = [].
Proof.
  intros Hran Hnonempty Hparse format_error.
  assert (Hprobe :
    get_video_duration w input_file []
    = (Raise format_error, [Spawn (Ffprobe input_file) (Completed cp)])).
  { rewrite get_video_duration_run, Hran. unfold duration_of.
    rewrite Hparse.
    destruct (PyStr.strip (stdout cp)); [contradiction|reflexivity]. }
  assert (Hrun :
    split_video w input_file split_count []
    = (Raise format_error, [Spawn (Ffprobe input_file) (Completed cp)])).
  { now apply split_video_probe_fails. }
  split; [now rewrite Hprobe|]. split; [|split].
  - intro diagnostic. split; [reflexivity|]. intros [=].
  - exact Hrun.
  - now rewrite Hrun.
Qed.

End Orchestration.

Section ExtractionLoop.

Context {F : Type} {RT : Runtime F}.

(** C7, as the code has it: for a positive count that Python can convert
    to [float] and a probe that succeeded, in a world [w'] where every
    [ffmpeg] can be started and every line printed, whatever the children
    return (exit status included), the run returns normally; it does
    exactly: the probe, the draw, then for [i = 0, 1, ..., n-1] in this
    order the progress line and the extraction of index [i], then the
    summary line.  The same holds in every such world with the same
    probe and generator, so what an extraction returns changes
    nothing. *)
Theorem extraction_status_is_ignored
        (w w' : World F) (input_file : string) (split_count : Z)
        (d : F) (t1 : trace F) :
  get_video_duration w input_file [] = (Ok d, t1) ->
  0 < split_count ->
  int_overflows split_count = false ->
  ffprobe_run w' = ffprobe_run w ->
  random_raw w' = random_raw w ->
  obliging w' ->
  let final := split_video w' input_file split_count [] in
  let rand_id := run_id_at w t1 in
  let sd := float_truediv d (float_of_int split_count) in
  let name (i : Z) : string :=
    (fst (OsPath.splitext input_file) ++ "_" ++ PyStr.str rand_id ++ "_"
       ++ PyStr.str (i + 1) ++ ".mp4")%string in
  fst final = Ok tt
  /\ actions (snd final)
     = Ran (Ffprobe input_file) :: Drew 1000 9999 rand_id
       :: flat_map
            (fun i =>
               [Printed
                  (PyStr.of_bytes
                     [196; 159; 197; 184; 226; 128; 157; 194; 167]%nat
                     ++ " Creating segment " ++ PyStr.str (i + 1) ++ "/"
                     ++ PyStr.str split_count ++ ": " ++ name i)%string;
                Ran (Ffmpeg (float_mul (float_of_int i) sd) input_file sd
                            (name i))])
            (range split_count)
       ++ [Printed
             (PyStr.of_bytes [195; 162; 197; 147; 226; 128; 166]%nat
                ++ " Done. Created " ++ PyStr.str split_count
                ++ " segments with ID " ++ PyStr.str rand_id ++ ".")%string]
  /\ List.length (extractions (snd final)) = Z.to_nat split_count
  /\ (forall i : nat,
        (i < Z.to_nat split_count)%nat ->
        exists e : extraction F,
          nth_error (extractions (snd final)) i = Some e
          /\ start_time e = float_mul (float_of_int (Z.of_nat i)) sd
          /\ segment_duration e = sd
          /\ source e = input_file
          /\ output_file e = name (Z.of_nat i))
  /\ (obliging w ->
      actions (snd final)
      = actions (snd (split_video w input_file split_count []))).
Proof.
  intros Hprobe Hn Hconv Hsame_probe Hsame_random Hobl' final rand_id sd name.
  assert (Hprobe' : get_video_duration w' input_file [] = (Ok d, t1)).
  { rewrite get_video_duration_run in Hprobe |- *.
    now rewrite Hsame_probe. }
  assert (Hnz : split_count <> 0) by lia.
  destruct (past_division w' input_file split_count d t1 Hprobe' Hnz Hconv)
    as (_ & _ & Hok' & _ & Hrun').
  destruct (Hok' (Hrun' Hobl')) as [Hact Hcalls].
  assert (Hid : run_id_at w' t1 = rand_id).
  { unfold rand_id, run_id_at. now rewrite Hsame_random. }
  rewrite Hid in Hact, Hcalls. fold final in Hact, Hcalls.
  fold sd in Hact, Hcalls.
  split; [exact (Hrun' Hobl')|]. split; [exact Hact|]. split; [|split].
  - rewrite Hcalls, length_map. apply range_length.
  - intros i Hi. eexists. split.
    + rewrite Hcalls, nth_error_map, (range_nth split_count i Hi).
      reflexivity.
    + repeat split.
  - intro Hobl.
    destruct (past_division w input_file split_count d t1 Hprobe Hnz Hconv)
      as (_ & _ & Hok & _ & Hrun).
    destruct (Hok (Hrun Hobl)) as [Hact0 _].
    rewrite Hact. symmetry. exact Hact0.
Qed.

(** C8, as the code has it: in a run whose probe succeeded and whose
    count is neither zero nor too large for a [float], one identifier is
    drawn; it lies in [1000 .. 9999] and prints with four digits; the
    output name of every extraction carries it between the two
    underscores; the names for distinct indices differ, so the output
    names of the run are pairwise distinct; the run returns normally
    when every [ffmpeg] can be started and every line printed, and has
    then requested [n] extractions.  A run that stops at the
    probe or at the division draws no identifier. *)
Theorem run_identifier_is_shared
        (w : World F) (input_file : string) (split_count : Z)
        (d : F) (t1 : trace F) :
  get_video_duration w input_file [] = (Ok d, t1) ->
  split_count <> 0 ->
  int_overflows split_count = false ->
  let final := split_video w input_file split_count [] in
  exists rand_id : Z,
    let name (i : Z) : string :=
      (fst (OsPath.splitext input_file) ++ "_" ++ PyStr.str rand_id ++ "_"
         ++ PyStr.str (i + 1) ++ ".mp4")%string in
    draws (snd final) = [rand_id]
    /\ 1000 <= rand_id <= 9999
    /\ String.length (PyStr.str rand_id) = 4%nat
    /\ (forall (i : nat) (e : extraction F),
          nth_error (extractions (snd final)) i = Some e ->
          output_file e = name (Z.of_nat i))
    /\ (forall i j : Z, i <> j -> name i <> name j)
    /\ NoDup (map output_file (extractions (snd final)))
    /\ (obliging w -> fst final = Ok tt)
    /\ (fst final = Ok tt ->
        List.length (extractions (snd final)) = Z.to_nat split_count)
    /\ (forall (w' : World F) (n' : Z),
          (forall d' t', get_video_duration w' input_file [] = (Ok d', t') ->
                         n' = 0 \/ int_overflows n' = true) ->
          draws (snd (split_video w' input_file n' [])) = []).
Proof.
  intros Hprobe Hnz Hconv final.
  destruct (past_division w input_file split_count d t1 Hprobe Hnz Hconv)
    as ((k & Hcalls) & Hdraws & Hok & _ & Hrun).
  fold final in Hcalls, Hdraws, Hok, Hrun.
  exists (run_id_at w t1). cbv zeta.
  split; [exact Hdraws|]. split; [apply run_id_at_range|].
  split; [apply str_four_digits, run_id_at_range|].
  split; [|split; [|split; [|split; [exact Hrun|split]]]].
  - intros i e Hnth. rewrite Hcalls in Hnth.
    now apply job_nth in Hnth as [_ ->].
  - intros i j Hij Heq. apply Hij.
    now apply (output_name_inj (fst (OsPath.splitext input_file))
                               (run_id_at w t1)).
  - rewrite Hcalls, map_map. cbn [job output_file].
    apply NoDup_map_injective.
    + intros a b. apply output_name_inj.
    + apply firstn_NoDup, range_NoDup.
  - intro Hr. destruct (Hok Hr) as [_ Hall].
    rewrite Hall, length_map. apply range_length.
  - intros w' n' Hstop. now destruct (aborted_run w' input_file n' Hstop).
Qed.

(** C9: with a count of zero nothing is checked before the probe.  Under
    any world the run consists of the [ffprobe] call alone, and an error
    of the probe is the error of the run; when the probe returns a
    duration, the division raises [ZeroDivisionError] right after it, with
    no draw, no line printed and no extraction. *)
Theorem zero_count_divides_after_probe
        (w : World F) (input_file : string) (d : F) (t1 : trace F) :
  get_video_duration w input_file [] = (Ok d, t1) ->
  split_video w input_file 0 []
  = (Raise ZeroDivisionError,
     [Spawn (Ffprobe input_file) (ffprobe_run w [] input_file)])
  /\ truediv d 0 t1 = (Raise ZeroDivisionError, t1)
  /\ extractions (snd (split_video w input_file 0 [])) = []
  /\ (forall w' : World F,
        snd (split_video w' input_file 0 [])
        = [Spawn (Ffprobe input_file) (ffprobe_run w' [] input_file)]
        /\ (forall err : exn,
              fst (get_video_duration w' input_file []) = Raise err ->
              fst (split_video w' input_file 0 []) = Raise err)).
Proof.
  intro Hprobe.
  pose proof (probe_trace w _ _ _ Hprobe) as Ht1.
  pose proof (split_video_zero w input_file d [] t1 Hprobe) as Hrun.
  rewrite Ht1 in Hrun.
  split; [exact Hrun|]. split; [|split; [now rewrite Hrun|]].
  - unfold truediv. now rewrite int_overflows_zero.
  - intro w'. split.
    + destruct (aborted_run w' input_file 0) as (Htrace & _);
        [intros; now left|exact Htrace].
    + intros err Herr.
      destruct (get_video_duration w' input_file []) as [r t'] eqn:H'.
      simpl in Herr. subst r.
      now rewrite (split_video_probe_fails w' input_file 0 err [] t' H').
Qed.

End ExtractionLoop.

(** ** Binary64: signs, and division by one *)

Section Binary64Facts.

Import Binary64.

Lemma signed_sign_bit (s : bool) (x : spec_float) :
  signed s x -> sign_bit x = s.
Proof. intros [->|[->|(m & e & ->)]]; reflexivity. Qed.

Lemma shr_1_nonneg (mrs : shr_record) :
  0 <= shr_m mrs -> 0 <= shr_m (shr_1 mrs).
Proof.
  destruct mrs as [m r s]. simpl.
  destruct m as [|[p|p|]|[p|p|]]; simpl; lia.
Qed.

Lemma iter_pos_nonneg (p : positive) :
  forall mrs, 0 <= shr_m mrs -> 0 <= shr_m (iter_pos shr_1 p mrs).
Proof.
  induction p as [p IH|p IH|]; intros mrs H; simpl.
  - apply IH, IH, shr_1_nonneg, H.
  - apply IH, IH, H.
  - apply shr_1_nonneg, H.
Qed.

Lemma shr_fexp_nonneg (m e : Z) (l : location) :
  0 <= m -> 0 <= shr_m (fst (shr_fexp prec emax m e l)).
Proof.
  intro H. unfold shr_fexp, shr.
  assert (H0 : 0 <= shr_m (shr_record_of_loc m l))
    by (destruct l as [|[]]; exact H).
  destruct (fexp prec emax (Zdigits2 m + e) - e) as [|p|p]; cbn [fst];
    try exact H0.
  now apply iter_pos_nonneg.
Qed.

Lemma round_nearest_even_nonneg (m : Z) (l : location) :
  0 <= m -> 0 <= round_nearest_even m l.
Proof.
  intro H. destruct l as [|[]]; simpl; try lia.
  destruct (Z.even m); lia.
Qed.

(** Rounding a mantissa that is not negative keeps the sign and gives
    no NaN. *)
Lemma binary_round_aux_signed (s : bool) (m e : Z) (l : location) :
  0 <= m -> signed s (binary_round_aux prec emax s m e l).
Proof.
  intro H. unfold binary_round_aux.
  pose proof (shr_fexp_nonneg m e l H) as H1.
  destruct (shr_fexp prec emax m e l) as [mrs' e'] eqn:E1. cbn [fst] in H1.
  pose proof (shr_fexp_nonneg
                (round_nearest_even (shr_m mrs') (loc_of_shr_record mrs'))
                e' loc_Exact
                (round_nearest_even_nonneg _ _ H1)) as H2.
  destruct (shr_fexp prec emax _ e' loc_Exact) as [mrs'' e''] eqn:E2.
  cbn [fst] in H2.
  destruct (shr_m mrs'') as [|p|p].
  - now left.
  - destruct (e'' <=? emax - prec); [right; right; eauto|right; now left].
  - lia.
Qed.

(** The double of a negative integer has its sign bit set. *)
Lemma of_Z_negative (n : Z) : n < 0 -> signed true (of_Z n).
Proof.
  destruct n as [|p|p]; intro H; try lia.
  unfold of_Z, binary_normalize, binary_round.
  destruct (shl_align p 0 _) as [mz ez].
  apply binary_round_aux_signed. lia.
Qed.

(** A finite non-zero number divided by a number that is not a NaN has
    the sign that the two signs give. *)
Lemma div_finite_signed (sx : bool) (mx : positive) (ex : Z)
      (sy : bool) (y : spec_float) :
  signed sy y -> signed (xorb sx sy) (div (S754_finite sx mx ex) y).
Proof.
  intros [->|[->|(my & ey & ->)]]; unfold div; simpl.
  - right. now left.
  - now left.
  - destruct (SFdiv_core_binary prec emax (Z.pos mx) ex (Z.pos my) ey)
      as [[mz ez] lz] eqn:Hcore.
    apply binary_round_aux_signed.
    unfold SFdiv_core_binary in Hcore.
    set (s := (ex - ey
               - Z.min (fexp prec emax
                          (Zdigits2 (Z.pos mx) + ex
                           - (Zdigits2 (Z.pos my) + ey)))
                       (ex - ey))) in Hcore.
    set (m' := match s with
               | 0 => Z.pos mx
               | Z.pos _ => Z.shiftl (Z.pos mx) s
               | Z.neg _ => 0
               end) in Hcore.
    assert (Hm' : 0 <= m').
    { subst m'. destruct s as [|p|p]; try lia.
      apply Z.shiftl_nonneg. lia. }
    pose proof (Z_div_mod m' (Z.pos my) eq_refl) as Hdiv.
    destruct (Z.div_eucl m' (Z.pos my)) as [q r].
    injection Hcore as <- _ _. nia.
Qed.

(** [1.0] *)
Lemma of_Z_one : of_Z 1 = S754_finite false 4503599627370496 (-52).
Proof. reflexivity. Qed.

Lemma div_eucl_multiple (k : Z) :
  Z.div_eucl (4503599627370496 * k) 4503599627370496 = (k, 0).
Proof.
  pose proof (Z_div_mod (4503599627370496 * k) 4503599627370496 eq_refl) as H.
  destruct (Z.div_eucl _ _) as [q r]. f_equal; lia.
Qed.

Lemma bounded_inv (m : positive) (e : Z) :
  bounded prec emax m e = true ->
  Z.max (Z.pos (digits2_pos m) + e - 53) (-1074) = e /\ e <= 971.
Proof.
  unfold bounded, canonical_mantissa, fexp, emin, prec, emax.
  intro H. apply andb_prop in H as [Hc He].
  apply Z.eqb_eq in Hc. apply Z.leb_le in He. split; [exact Hc|exact He].
Qed.

(** A mantissa already in place is left alone by the rounding. *)
Lemma shr_fexp_in_place (m : positive) (e : Z) :
  bounded prec emax m e = true ->
  shr_fexp prec emax (Z.pos m) e loc_Exact
  = ({| shr_m := Z.pos m; shr_r := false; shr_s := false |}, e).
Proof.
  intro Hb. apply bounded_inv in Hb as [Hc _].
  unfold shr_fexp, fexp, emin, prec, emax.
  change (Zdigits2 (Z.pos m)) with (Z.pos (digits2_pos m)).
  replace (Z.max (Z.pos (digits2_pos m) + e - 53) (3 - 1024 - 53) - e)
    with 0 by lia.
  reflexivity.
Qed.

Lemma round_in_place (s : bool) (m : positive) (e : Z) :
  bounded prec emax m e = true ->
  binary_round_aux prec emax s (Z.pos m) e loc_Exact = S754_finite s m e.
Proof.
  intro Hb. unfold binary_round_aux.
  rewrite (shr_fexp_in_place m e Hb).
  cbn [shr_m loc_of_shr_record round_nearest_even].
  rewrite (shr_fexp_in_place m e Hb). cbn [shr_m].
  apply bounded_inv in Hb as [_ He].
  unfold prec, emax. destruct (Z.leb_spec e (1024 - 53)); [reflexivity|lia].
Qed.

(** Dividing a finite double by [1.0] gives it back. *)
Lemma div_by_one (s : bool) (m : positive) (e : Z) :
  bounded prec emax m e = true ->
  div (S754_finite s m e) (of_Z 1) = S754_finite s m e.
Proof.
  intro Hb. rewrite of_Z_one. unfold div, SFdiv, SFdiv_core_binary.
  pose proof (bounded_inv m e Hb) as [Hc He].
  assert (Hs : xorb s false = s) by now destruct s. rewrite Hs.
  change (Zdigits2 (Z.pos m)) with (Z.pos (digits2_pos m)).
  change (Zdigits2 4503599627370496) with 53.
  unfold fexp at 1 2 3, emin, prec at 1 2 3 4 5 6, emax at 1 2 3.
  set (D := Z.pos (digits2_pos m)) in *.
  assert (HD : 0 < D) by (subst D; lia).
  set (e' := Z.min (Z.max (D + e - (53 + -52) - 53) (3 - 1024 - 53))
                   (e - -52)).
  assert (Hcase : (D = 53 /\ -1074 < e /\ e' = e - 1)
                  \/ (e = -1074 /\ e' = e)).
  { subst e'. lia. }
  destruct Hcase as [(HD53 & Hlow & He')|(Hmin & He')]; rewrite He'.
  - replace (e - -52 - (e - 1)) with 53 by lia.
    rewrite Z.shiftl_mul_pow2 by lia.
    replace (Z.pos m * 2 ^ 53) with (4503599627370496 * (Z.pos m~0)) by lia.
    rewrite div_eucl_multiple.
    change (new_location 4503599627370496 0) with loc_Exact.
    unfold binary_round_aux. unfold shr_fexp at 1.
    change (Zdigits2 (Z.pos m~0)) with (Z.pos (Pos.succ (digits2_pos m))).
    replace (fexp prec emax (Z.pos (Pos.succ (digits2_pos m)) + (e - 1))
             - (e - 1))
      with 1 by (unfold fexp, emin, prec, emax; subst D; lia).
    cbn [shr shr_record_of_loc iter_pos shr_1 orb shr_m loc_of_shr_record
         round_nearest_even].
    replace (e - 1 + 1) with e by lia.
    rewrite (shr_fexp_in_place m e Hb). cbn [shr_m].
    unfold prec, emax. destruct (Z.leb_spec e (1024 - 53)); [reflexivity|lia].
  - replace (e - -52 - e) with 52 by lia.
    rewrite Z.shiftl_mul_pow2 by lia.
    replace (Z.pos m * 2 ^ 52) with (4503599627370496 * (Z.pos m)) by lia.
    rewrite div_eucl_multiple.
    change (new_location 4503599627370496 0) with loc_Exact.
    now apply round_in_place.
Qed.

End Binary64Facts.

(** ** Rational facts about windows *)

Section WindowArithmetic.

Local Open Scope Q_scope.

Lemma start_step (i : Z) (sd : Q) :
  inject_Z i * sd + sd == inject_Z (i + 1) * sd.
Proof. rewrite inject_Z_plus. ring. Qed.


Lemma durations_sum (parse : string -> option Q) (repr : string -> string)
      input_file base_name rand_id (sd : Q) (l : list Z) :
  Qsum (map segment_duration
            (map (job (RT := QRuntime parse repr)
                      input_file base_name rand_id sd) l))
  == inject_Z (Z.of_nat (List.length l)) * sd.
Proof.
  induction l as [|i l IH].
  - simpl. ring.
  - cbn [map Qsum fold_right List.length job segment_duration].
    fold (Qsum (map segment_duration
                    (map (job (RT := QRuntime parse repr)
                              input_file base_name rand_id sd) l))).
    rewrite IH, Nat2Z.inj_succ. unfold Z.succ.
    rewrite inject_Z_plus. ring.
Qed.

Lemma repeat_sum (d : Q) (n : Z) :
  (0 < n)%Z -> Qsum (repeat (d / inject_Z n) (Z.to_nat n)) == d.
Proof.
  intro Hn.
  assert (H : forall (k : nat) (x : Q),
             Qsum (repeat x k) == inject_Z (Z.of_nat k) * x).
  { induction k as [|k IH]; intro x; [simpl; ring|].
    cbn [repeat Qsum fold_right]. fold (Qsum (repeat x k)).
    rewrite IH, Nat2Z.inj_succ. unfold Z.succ. rewrite inject_Z_plus. ring. }
  rewrite H, Z2Nat.id by lia. field.
  intro H0. apply (proj1 (inject_Z_injective n 0)) in H0. lia.
Qed.

Lemma quotient_times_count (d : Q) (n : Z) :
  (0 < n)%Z -> inject_Z n * (d / inject_Z n) == d.
Proof.
  intro Hn. field. intro H.
  apply (proj1 (inject_Z_injective n 0)) in H. lia.
Qed.

End WindowArithmetic.

(** ** A run without iterations *)

Section NoIterations.

Context {F : Type} {RT : Runtime F}.

(** When [range(n)] is empty the run is the probe, the division, the
    draw and the summary. *)
Lemma split_video_no_iterations (w : World F) input_file n d t1 :
  get_video_duration w input_file [] = (Ok d, t1) ->
  n < 0 ->
  int_overflows n = false ->
  let t2 := t1 ++ [Randint 1000 9999 (run_id_at w t1)] in
  let line := done_message n (run_id_at w t1) in
  split_video w input_file n []
  = (match print_run w t2 line with
     | None => Ok tt
     | Some f => Raise (External f)
     end,
     t2 ++ [Print line (print_run w t2 line)]).
Proof.
  intros Hprobe Hn Hconv t2 line.
  unfold split_video, bind at 1. rewrite Hprobe.
  unfold bind at 1, truediv. rewrite Hconv.
  destruct (Z.eqb_spec n 0) as [->|_]; [lia|].
  unfold ret at 1.
  destruct (OsPath.splitext input_file) as [base ext].
  unfold bind at 1, randint at 1.
  rewrite (range_nonpositive n) by lia. simpl for_.
  unfold bind, ret, print. reflexivity.
Qed.

End NoIterations.

Lemma str_negative (n : Z) :
  n < 0 -> PyStr.str n = String "-"%char (PyStr.str (- n)).
Proof. destruct n as [|p|p]; intro H; try lia. reflexivity. Qed.

(** ** Time windows, in binary64 *)

Section TimeWindows.

Import Binary64.

Variable parse : string -> option spec_float.
Variable repr : string -> string.

#[local] Instance doubles : Runtime spec_float :=
  Binary64Runtime parse repr.

(** C2, as the code has it in binary64: when the probe returned [d] and
    the count [n] is positive and not too large for a [float], every
    extraction requested, at position [i], starts at [float(i) * (d /
    float(n))] and lasts [d / float(n)], each operation rounded; the run
    returns normally when every [ffmpeg] can be started and every line
    printed, and a run that returns normally has requested [n]
    extractions; for a duration of
    600.0 and a count of 3 the starts are 0.0, 200.0 and 400.0 and every
    length is 200.0; for a count of 1 and a finite positive [d] there is
    one request, starting at 0.0 and lasting [d]. *)
Theorem start_times_are_multiples
        (w : World spec_float) (input_file : string) (split_count : Z)
        (d : spec_float) (t1 : trace spec_float) :
  get_video_duration w input_file [] = (Ok d, t1) ->
  0 < split_count ->
  overflows split_count = false ->
  let final := split_video w input_file split_count [] in
  let calls := extractions (snd final) in
  (forall (i : nat) (e : extraction spec_float),
     nth_error calls i = Some e ->
     start_time e = mul (of_Z (Z.of_nat i)) (div d (of_Z split_count))
     /\ segment_duration e = div d (of_Z split_count))
  /\ (obliging w -> fst final = Ok tt)
  /\ (fst final = Ok tt -> List.length calls = Z.to_nat split_count)
  /\ (d = of_Z 600 -> split_count = 3 -> fst final = Ok tt ->
      map start_time calls = [S754_zero false; of_Z 200; of_Z 400]
      /\ map segment_duration calls = [of_Z 200; of_Z 200; of_Z 200])
  /\ (split_count = 1 -> fst final = Ok tt ->
      forall (m : positive) (e : Z),
        d = S754_finite false m e ->
        bounded prec emax m e = true ->
        exists x : extraction spec_float,
          calls = [x]
          /\ start_time x = S754_zero false
          /\ segment_duration x = d).
Proof.
  intros Hprobe Hn Hconv final calls.
  assert (Hnz : split_count <> 0) by lia.
  destruct (past_division w input_file split_count d t1 Hprobe Hnz Hconv)
    as ((k & Hcalls) & _ & Hok & _ & Hrun).
  fold final in Hcalls, Hok, Hrun. fold calls in Hcalls, Hok.
  split; [|split; [exact Hrun|split; [|split]]].
  - intros i e Hnth. rewrite Hcalls in Hnth.
    apply job_nth in Hnth as [_ ->]. split; reflexivity.
  - intro Hr. destruct (Hok Hr) as [_ Hall].
    rewrite Hall, length_map. apply range_length.
  - intros -> -> Hr. destruct (Hok Hr) as [_ Hall]. rewrite Hall.
    split; vm_compute; reflexivity.
  - intros -> Hr m e -> Hb. destruct (Hok Hr) as [_ Hall]. rewrite Hall.
    eexists. split; [reflexivity|].
    cbn [job start_time segment_duration].
    cbn [float_mul float_truediv float_of_int doubles Binary64Runtime].
    rewrite (div_by_one false m e Hb). split; reflexivity.
Qed.


(** C10, as the code has it in binary64: for a negative count that is
    not too large for a [float], a probe that returned [d] and a summary
    line that can be printed, the run raises nothing and returns normally
    after three events: the probe, the draw of the identifier, and the
    summary line, which shows the negative count.  The division is
    carried out and gives [d / float(n)], whose sign is negative (a
    negative number or [-0.0]) when [d] is finite and positive;
    [range(n)] is empty, so the loop body never runs and no extraction is
    requested. *)
Theorem negative_count_completes
        (w : World spec_float) (input_file : string) (split_count : Z)
        (d : spec_float) (t1 : trace spec_float) :
  get_video_duration w input_file [] = (Ok d, t1) ->
  split_count < 0 ->
  overflows split_count = false ->
  (forall t line, print_run w t line = None) ->
  let final := split_video w input_file split_count [] in
  exists rand_id : Z,
    final
    = (Ok tt,
       [Spawn (Ffprobe input_file) (ffprobe_run w [] input_file);
        Randint 1000 9999 rand_id;
        Print (PyStr.of_bytes [195; 162; 197; 147; 226; 128; 166]%nat
                 ++ " Done. Created -" ++ PyStr.str (- split_count)
                 ++ " segments with ID " ++ PyStr.str rand_id ++ ".")%string
              None])
    /\ 1000 <= rand_id <= 9999
    /\ truediv d split_count t1 = (Ok (div d (of_Z split_count)), t1)
    /\ (forall (m : positive) (e : Z),
          d = S754_finite false m e ->
          sign_bit (div d (of_Z split_count)) = true
          /\ div d (of_Z split_count) <> S754_nan)
    /\ range split_count = []
    /\ extractions (snd final) = [].
Proof.
  intros Hprobe Hn Hconv Hprint final.
  pose proof (split_video_no_iterations w input_file split_count d t1
                Hprobe Hn Hconv) as Hrun.
  cbv zeta in Hrun. rewrite Hprint in Hrun.
  rewrite (probe_trace w _ _ _ Hprobe) in Hrun at 1.
  exists (run_id_at w t1). split; [|split; [|split; [|split; [|split]]]].
  - subst final. rewrite Hrun. unfold done_message.
    rewrite (str_negative split_count Hn). reflexivity.
  - apply run_id_at_range.
  - unfold truediv.
    cbn [int_overflows float_truediv float_of_int doubles Binary64Runtime].
    rewrite Hconv. destruct (Z.eqb_spec split_count 0); [lia|reflexivity].
  - intros m e ->.
    pose proof (div_finite_signed false m e true (of_Z split_count)
                  (of_Z_negative split_count Hn)) as Hs.
    split; [now apply signed_sign_bit in Hs|].
    destruct Hs as [->|[->|(m' & e' & ->)]]; discriminate.
  - apply range_nonpositive. lia.
  - subst final. rewrite Hrun. reflexivity.
Qed.

(** X11: in binary64, for a positive count that is not too large for a
    [float], when the division [d / float(n)] and the products
    [float(i) * (d / float(n))] are not rounded and [d] is finite and
    not negative,
    the first window starts at 0 and every window lies between 0 and the
    duration; the run returns normally when every [ffmpeg] can be started
    and every line printed, and in a run that returns normally the last
    window ends at the duration. *)
Theorem windows_cover_the_duration
        (w : World spec_float) (input_file : string) (split_count : Z)
        (d : spec_float) (t1 : trace spec_float) :
  get_video_duration w input_file [] = (Ok d, t1) ->
  0 < split_count ->
  overflows split_count = false ->
  let sd := div d (of_Z split_count) in
  is_finite d = true ->
  (0 <= value d)%Q ->
  (inject_Z split_count * value sd == value d)%Q ->
  (forall i : Z,
     0 <= i < split_count ->
     (value (mul (of_Z i) sd) == inject_Z i * value sd)%Q) ->
  let final := split_video w input_file split_count [] in
  let calls := extractions (snd final) in
  (forall e : extraction spec_float,
     nth_error calls 0 = Some e -> (value (start_time e) == 0)%Q)
  /\ (forall e : extraction spec_float,
        In e calls ->
        (0 <= value (start_time e)
         /\ value (start_time e) + value (segment_duration e)
            <= value d)%Q)
  /\ (obliging w -> fst final = Ok tt)
  /\ (fst final = Ok tt ->
      exists e : extraction spec_float,
        nth_error calls (Z.to_nat split_count - 1) = Some e
        /\ (value (start_time e) + value (segment_duration e)
            == value d)%Q).
Proof.
  intros Hprobe Hn Hconv sd _ Hd Hdiv Hexact final calls.
  assert (Hnz : split_count <> 0) by lia.
  destruct (past_division w input_file split_count d t1 Hprobe Hnz Hconv)
    as ((k & Hcalls) & _ & Hok & _ & Hrun).
  fold final in Hcalls, Hok, Hrun. fold calls in Hcalls, Hok.
  assert (Hsd : (0 <= value sd)%Q).
  { apply (Qmult_le_l _ _ (inject_Z split_count)).
    - change 0%Q with (inject_Z 0). rewrite <- Zlt_Qlt. exact Hn.
    - rewrite Qmult_0_r, Hdiv. exact Hd. }
  assert (Hwithin :
    forall i : Z, 0 <= i < split_count ->
      (0 <= inject_Z i * value sd
       /\ inject_Z i * value sd + value sd <= value d)%Q).
  { intros i Hi. split.
    - apply Qmult_le_0_compat; [|exact Hsd].
      change 0%Q with (inject_Z 0). rewrite <- Zle_Qle. lia.
    - rewrite start_step, <- Hdiv. apply Qmult_le_compat_r; [|exact Hsd].
      rewrite <- Zle_Qle. lia. }
  split; [|split; [|split; [exact Hrun|]]].
  - intros e He. rewrite Hcalls in He. apply job_nth in He as [_ ->].
    cbn [job start_time].
    cbn [float_mul float_truediv float_of_int doubles Binary64Runtime].
    fold sd. rewrite (Hexact (Z.of_nat 0)) by lia. apply Qmult_0_l.
  - intros e He. rewrite Hcalls in He.
    apply in_map_iff in He as (i & <- & Hi).
    apply firstn_in, range_in in Hi.
    cbn [job start_time segment_duration].
    cbn [float_mul float_truediv float_of_int doubles Binary64Runtime].
    fold sd. rewrite (Hexact i Hi). now apply Hwithin.
  - intro Hr. destruct (Hok Hr) as [_ Hall]. rewrite Hall.
    eexists. split.
    + rewrite nth_error_map, (range_nth split_count) by lia. reflexivity.
    + cbn [job start_time segment_duration option_map].
      cbn [float_mul float_truediv float_of_int doubles Binary64Runtime].
      fold sd. rewrite (Hexact (Z.of_nat (Z.to_nat split_count - 1))) by lia.
      rewrite start_step.
      replace (Z.of_nat (Z.to_nat split_count - 1) + 1) with split_count
        by lia.
      exact Hdiv.
Qed.

End TimeWindows.

(** ** The sum of the lengths, in exact arithmetic *)

Section ExactSum.

Variable parse : string -> option Q.
Variable repr : string -> string.

#[local] Instance rationals : Runtime Q := QRuntime parse repr.

Local Open Scope Q_scope.

(** C3: in exact arithmetic, for a positive count [n], the division
    gives the length [d / n], every requested segment has this length,
    and [n] such lengths add up to the duration [d] the probe returned.
    A run returns normally when every [ffmpeg] can be started and every
    line printed, and a run that returns normally has requested [n]
    segments, whose lengths add up to [d]. *)
Theorem segment_durations_sum_to_duration
        (w : World Q) (input_file : string) (split_count : Z)
        (d : Q) (t1 : trace Q) :
  get_video_duration w input_file [] = (Ok d, t1) ->
  (0 < split_count)%Z ->
  let final := split_video w input_file split_count [] in
  let calls := extractions (snd final) in
  Forall (fun e => segment_duration e = d / inject_Z split_count) calls
  /\ truediv d split_count t1 = (Ok (d / inject_Z split_count), t1)
  /\ Qsum (repeat (d / inject_Z split_count) (Z.to_nat split_count)) == d
  /\ (obliging w -> fst final = Ok tt)
  /\ (fst final = Ok tt ->
      List.length calls = Z.to_nat split_count
      /\ Qsum (map segment_duration calls) == d).
Proof.
  intros Hprobe Hn final calls.
  assert (Hnz : split_count <> 0%Z) by lia.
  destruct (past_division w input_file split_count d t1 Hprobe Hnz eq_refl)
    as ((k & Hcalls) & _ & Hok & _ & Hrun).
  fold final in Hcalls, Hok, Hrun. fold calls in Hcalls, Hok.
  split; [|split; [|split; [|split; [exact Hrun|]]]].
  - rewrite Hcalls. apply Forall_forall. intros e He.
    apply in_map_iff in He as (i & <- & _). reflexivity.
  - unfold truediv. cbn [int_overflows rationals QRuntime].
    destruct (Z.eqb_spec split_count 0); [lia|reflexivity].
  - apply repeat_sum. exact Hn.
  - intro Hr. destruct (Hok Hr) as [_ Hall]. rewrite Hall. split.
    + rewrite length_map. apply range_length.
    + eapply Qeq_trans; [apply durations_sum|].
      rewrite range_length, Z2Nat.id by lia.
      cbn [float_truediv float_of_int rationals QRuntime].
      now apply quotient_times_count.
Qed.

End ExactSum.

(** ** Paths *)

Section PathFacts.

Import PyStr.

Lemma occurs_app (c : ascii) (a b : string) :
  occurs c (a ++ b)%string = occurs c a || occurs c b.
Proof.
  induction a as [|x a IH]; simpl; [reflexivity|].
  now rewrite IH, orb_assoc.
Qed.

Lemma occurs_slice_from (c : ascii) (k : nat) :
  forall s : string, occurs c s = false -> occurs c (slice_from k s) = false.
Proof.
  induction k as [|k IH]; intros [|a s] H; simpl; try assumption.
  simpl in H. apply orb_false_elim in H as [_ H]. now apply IH.
Qed.

Lemma slice_from_add (a b : nat) :
  forall s : string, slice_from (a + b) s = slice_from b (slice_from a s).
Proof.
  induction a as [|a IH]; intros [|c s]; simpl; try reflexivity.
  - now destruct b.
  - apply IH.
Qed.

Lemma slice_to_add (a b : nat) :
  forall s : string,
    slice_to (a + b) s = (slice_to a s ++ slice_to b (slice_from a s))%string.
Proof.
  induction a as [|a IH]; intros [|c s]; simpl; try reflexivity.
  - now destruct b.
  - now rewrite IH.
Qed.

Lemma slice_from_get (k : nat) (c : ascii) :
  forall s : string,
    String.get k s = Some c -> slice_from k s = String c (slice_from (S k) s).
Proof.
  induction k as [|k IH]; intros [|a s] H; simpl in H; try discriminate.
  - injection H as ->. reflexivity.
  - now apply IH.
Qed.

(** [rfind] returns [-1] when the character does not occur, and the
    position of its last occurrence otherwise. *)
Lemma rfind_from_spec (c : ascii) (s : string) :
  forall i last : Z,
    (occurs c s = false /\ rfind_from c s i last = last)
    \/ (exists k : nat,
          rfind_from c s i last = i + Z.of_nat k
          /\ String.get k s = Some c
          /\ occurs c (slice_from (S k) s) = false).
Proof.
  induction s as [|a s IH]; intros i last; simpl.
  - now left.
  - destruct (IH (i + 1) (if Ascii.eqb a c then i else last))
      as [[Hnone Heq]|(k & Heq & Hget & Hafter)].
    + destruct (Ascii.eqb_spec a c) as [->|Hac].
      * right. exists 0%nat. rewrite Heq. repeat split; [lia|exact Hnone].
      * left. rewrite Hnone. now split.
    + right. exists (S k). rewrite Heq. repeat split; [lia|exact Hget|].
      exact Hafter.
Qed.

Lemma rfind_spec (c : ascii) (s : string) :
  (occurs c s = false /\ rfind c s = -1)
  \/ (exists k : nat,
        rfind c s = Z.of_nat k
        /\ String.get k s = Some c
        /\ occurs c (slice_from (S k) s) = false).
Proof.
  unfold rfind.
  destruct (rfind_from_spec c s 0 (-1)) as [H|(k & Heq & H)];
    [now left|right].
  exists k. now rewrite Heq.
Qed.

Lemma occurs_after_rfind (c : ascii) (s : string) (k : nat) :
  rfind c s < Z.of_nat k -> occurs c (slice_from k s) = false.
Proof.
  intro Hlt.
  destruct (rfind_spec c s) as [[Hnone _]|(k0 & Heq & _ & Hafter)].
  - now apply occurs_slice_from.
  - replace k with (S k0 + (k - S k0))%nat by lia.
    rewrite slice_from_add. now apply occurs_slice_from.
Qed.

(** The extension [splitext] splits off is empty, or a dot followed by
    characters among which there is neither a dot nor a slash. *)
Lemma splitext_extension (p : string) :
  snd (OsPath.splitext p) = EmptyString
  \/ (exists rest : string,
        snd (OsPath.splitext p) = String "."%char rest
        /\ occurs "."%char rest = false
        /\ occurs "/"%char rest = false).
Proof.
  unfold OsPath.splitext, OsPath._splitext.
  destruct (_ && _) eqn:Hcond; [|now left]. right.
  apply andb_prop in Hcond as [Hlt _]. apply Z.ltb_lt in Hlt.
  destruct (rfind_spec "."%char p) as [[_ Hdot]|(k & Hdot & Hget & Hafter)].
  - destruct (rfind_spec "/"%char p) as [[_ Hs]|(k & Hs & _)]; lia.
  - rewrite Hdot in *. cbn [snd]. rewrite Nat2Z.id.
    exists (slice_from (S k) p). repeat split.
    + now apply slice_from_get.
    + exact Hafter.
    + apply occurs_after_rfind. lia.
Qed.

(** The base name keeps the directories of the path: path and base name
    start with the same text, after which neither has a slash. *)
Lemma splitext_directory (p : string) :
  exists dir mid : string,
    fst (OsPath.splitext p) = (dir ++ mid)%string
    /\ occurs "/"%char (mid ++ snd (OsPath.splitext p))%string = false.
Proof.
  set (m := Z.to_nat (rfind "/"%char p + 1)).
  assert (Hrest : occurs "/"%char (slice_from m p) = false).
  { apply occurs_after_rfind. subst m.
    destruct (rfind_spec "/"%char p) as [[_ Hs]|(k & Hs & _)]; lia. }
  unfold OsPath.splitext, OsPath._splitext.
  destruct (_ && _) eqn:Hcond; cbn [fst snd].
  - apply andb_prop in Hcond as [Hlt _]. apply Z.ltb_lt in Hlt.
    set (kd := Z.to_nat (rfind "."%char p)).
    set (j := (kd - m)%nat).
    assert (Hkd : kd = (m + j)%nat).
    { subst j kd m.
      destruct (rfind_spec "/"%char p) as [[_ Hs]|(k & Hs & _)]; lia. }
    clearbody j. rewrite Hkd.
    exists (slice_to m p), (slice_to j (slice_from m p)). split.
    + apply slice_to_add.
    + rewrite slice_from_add, slice_join. exact Hrest.
  - exists (slice_to m p), (slice_from m p). split.
    + symmetry. apply slice_join.
    + rewrite occurs_app, Hrest. reflexivity.
Qed.

Lemma uint_digits_no_slash (d : Decimal.uint) :
  occurs "/"%char (NilEmpty.string_of_uint d) = false.
Proof. induction d; simpl; auto. Qed.

Lemma str_no_slash (n : Z) : occurs "/"%char (str n) = false.
Proof.
  unfold str, NilZero.string_of_int, NilZero.string_of_uint.
  destruct (Z.to_int n) as [d|d]; destruct d; simpl;
    auto using uint_digits_no_slash.
Qed.

Lemma name_suffix_no_slash (rand_id i : Z) :
  occurs "/"%char (name_suffix rand_id i) = false.
Proof.
  unfold name_suffix. simpl. rewrite occurs_app, str_no_slash. simpl.
  rewrite occurs_app, str_no_slash. reflexivity.
Qed.

Lemma output_name_suffix (base_name : string) (rand_id i : Z) :
  output_name base_name rand_id i
  = (base_name ++ name_suffix rand_id i)%string.
Proof. reflexivity. Qed.

End PathFacts.

(** X9: [os.path.splitext], as [split_video] uses it: the two parts make
    up the path; the extension is empty, or a dot followed by characters
    among which there is neither a dot nor a slash; and the base name of
    a non-empty path is not empty. *)
Theorem splitext_shape (p : string) :
  (fst (OsPath.splitext p) ++ snd (OsPath.splitext p))%string = p
  /\ (snd (OsPath.splitext p) = EmptyString
      \/ exists rest : string,
           snd (OsPath.splitext p) = String "."%char rest
           /\ occurs "."%char rest = false
           /\ occurs "/"%char rest = false)
  /\ (p <> EmptyString -> fst (OsPath.splitext p) <> EmptyString).
Proof.
  split; [apply splitext_join|]. split; [apply splitext_extension|].
  intro Hp. unfold OsPath.splitext, OsPath._splitext.
  destruct (_ && _) eqn:Hcond; cbn [fst]; [|exact Hp].
  apply andb_prop in Hcond as [_ Hname].
  destruct (Z.to_nat (PyStr.rfind "."%char p - (PyStr.rfind "/"%char p + 1)))
    as [|fuel] eqn:Hfuel; [discriminate Hname|].
  assert (Hdot : exists k, Z.to_nat (PyStr.rfind "."%char p) = S k).
  { exists (Z.to_nat (PyStr.rfind "."%char p) - 1)%nat.
    destruct (rfind_spec "/"%char p) as [[_ Hs]|(k & Hs & _)]; lia. }
  destruct Hdot as (k & ->).
  destruct p as [|a p]; [contradiction|]. discriminate.
Qed.

Section Names.

Context {F : Type} {RT : Runtime F}.

Lemma append_same_length (a b x y : string) :
  String.length a = String.length b ->
  (a ++ x)%string = (b ++ y)%string -> a = b /\ x = y.
Proof.
  revert b. induction a as [|c a IH]; intros [|c' b] Hlen Heq;
    simpl in *; try discriminate.
  - now split.
  - injection Heq as -> Heq. injection Hlen as Hlen.
    destruct (IH b Hlen Heq) as [-> ->]. now split.
Qed.

(** X7: every extraction reads the input file and writes somewhere
    else: although [ffmpeg] is told to overwrite ([-y]), the input file
    is never an output file. *)
Theorem input_is_never_an_output
        (w : World F) (input_file : string) (split_count : Z)
        (e : extraction F) :
  In e (extractions (snd (split_video w input_file split_count []))) ->
  source e = input_file /\ output_file e <> input_file.
Proof.
  intro Hin.
  apply extraction_shape in Hin as (d & t1 & i & _ & _ & _ & _ & ->).
  cbn [job source output_file]. split; [reflexivity|].
  rewrite output_name_suffix. intro Heq.
  rewrite <- (splitext_join input_file) in Heq at 2.
  apply append_inv_head in Heq.
  destruct (splitext_extension input_file) as [Hext|(rest & Hext & _)];
    rewrite Hext in Heq; discriminate Heq.
Qed.

(** X8: the output files are siblings of the input file: input path and
    output path start with the same directory text, and what follows it
    has no slash in either. *)
Theorem outputs_are_beside_the_input
        (w : World F) (input_file : string) (split_count : Z)
        (e : extraction F) :
  In e (extractions (snd (split_video w input_file split_count []))) ->
  exists dir name_in name_out : string,
    input_file = (dir ++ name_in)%string
    /\ output_file e = (dir ++ name_out)%string
    /\ occurs "/"%char name_in = false
    /\ occurs "/"%char name_out = false.
Proof.
  intro Hin.
  apply extraction_shape in Hin as (d & t1 & i & _ & _ & _ & _ & ->).
  cbn [job output_file]. rewrite output_name_suffix.
  destruct (splitext_directory input_file) as (dir & mid & Hbase & Hfree).
  rewrite occurs_app in Hfree. apply orb_false_elim in Hfree as [Hmid Hext].
  exists dir, (mid ++ snd (OsPath.splitext input_file))%string,
         (mid ++ name_suffix (run_id_at w t1) i)%string.
  repeat split.
  - rewrite <- (splitext_join input_file) at 1. rewrite Hbase.
    clear. induction dir as [|c dir IH]; simpl; [reflexivity|].
    now rewrite IH.
  - rewrite Hbase.
    clear. induction dir as [|c dir IH]; simpl; [reflexivity|].
    now rewrite IH.
  - now rewrite occurs_app, Hmid, Hext.
  - now rewrite occurs_app, Hmid, name_suffix_no_slash.
Qed.

(** X10: two runs on the same input that drew different identifiers
    have no output name in common, whatever their counts. *)
Theorem different_identifiers_different_names
        (w w' : World F) (input_file : string) (n n' : Z)
        (e e' : extraction F) (r r' : Z) :
  In e (extractions (snd (split_video w input_file n []))) ->
  In e' (extractions (snd (split_video w' input_file n' []))) ->
  draws (snd (split_video w input_file n [])) = [r] ->
  draws (snd (split_video w' input_file n' [])) = [r'] ->
  r <> r' ->
  output_file e <> output_file e'.
Proof.
  intros Hin Hin' Hr Hr' Hdiff.
  apply extraction_shape in Hin as (d & t1 & i & _ & _ & _ & Hdraw & ->).
  apply extraction_shape in Hin'
    as (d' & t1' & i' & _ & _ & _ & Hdraw' & ->).
  rewrite Hr in Hdraw. rewrite Hr' in Hdraw'.
  injection Hdraw as Hid. injection Hdraw' as Hid'.
  rewrite <- Hid, <- Hid'. cbn [job output_file]. unfold output_name.
  intro Heq. do 2 apply append_inv_head in Heq.
  apply append_same_length in Heq as [Heq _].
  - apply str_inj in Heq. contradiction.
  - rewrite !str_four_digits; [reflexivity| |];
      [rewrite Hid'|rewrite Hid]; apply run_id_at_range.
Qed.

End Names.


(** ** Stripping *)

Section StripFacts.

Import PyStr.

Lemma append_nil_r (s : string) : (s ++ "")%string = s.
Proof. induction s as [|c s IH]; simpl; [reflexivity|]. now rewrite IH. Qed.

Lemma append_assoc (a b c : string) :
  ((a ++ b) ++ c)%string = (a ++ b ++ c)%string.
Proof. induction a as [|x a IH]; simpl; [reflexivity|]. now rewrite IH. Qed.

(** The whitespace character at the front, taken apart. *)
Lemma head_space_split (s rest : string) :
  head_space s = Some rest ->
  exists c : string,
    s = (c ++ rest)%string /\ is_space_char c = true
    /\ (String.length rest < String.length s)%nat.
Proof.
  unfold is_space_char.
  destruct s as [|a s1]; simpl; [discriminate|].
  destruct (is_space1 a) eqn:H1.
  - intros [= ->]. exists (String a ""). simpl. rewrite H1.
    repeat split. lia.
  - destruct s1 as [|b s2]; [discriminate|].
    destruct (is_space2 a b) eqn:H2.
    + intros [= ->]. exists (String a (String b "")). simpl.
      rewrite H1, H2. repeat split. lia.
    + destruct s2 as [|c s3]; [discriminate|].
      destruct (is_space3 a b c) eqn:H3; [|discriminate].
      intros [= ->]. exists (String a (String b (String c ""))). simpl.
      rewrite H1, H2, H3. repeat split. lia.
Qed.

(** A whitespace character in front of a string is found there. *)
Lemma head_space_app (c q : string) :
  is_space_char c = true -> head_space (c ++ q)%string = Some q.
Proof.
  unfold is_space_char.
  destruct c as [|a c1]; simpl; [discriminate|].
  destruct (is_space1 a) eqn:H1.
  - destruct c1; [reflexivity|discriminate].
  - destruct c1 as [|b c2]; [discriminate|]. simpl.
    destruct (is_space2 a b) eqn:H2.
    + destruct c2; [reflexivity|discriminate].
    + destruct c2 as [|c c3]; [discriminate|]. simpl.
      destruct (is_space3 a b c) eqn:H3; [|discriminate].
      destruct c3; [reflexivity|discriminate].
Qed.

Lemma lstrip_step (s : string) :
  lstrip s = match head_space s with
             | Some rest => lstrip rest
             | None => s
             end.
Proof.
  destruct s as [|a [|b [|c s3]]]; simpl; try reflexivity.
  - now destruct (is_space1 a).
  - destruct (is_space1 a); [reflexivity|]. now destruct (is_space2 a b).
  - destruct (is_space1 a); [reflexivity|].
    destruct (is_space2 a b); [reflexivity|]. now destruct (is_space3 a b c).
Qed.

Lemma all_space_step (s : string) :
  all_space s = match s with
                | EmptyString => true
                | String _ _ =>
                    match head_space s with
                    | Some rest => all_space rest
                    | None => false
                    end
                end.
Proof.
  destruct s as [|a [|b [|c s3]]]; simpl; try reflexivity.
  - now destruct (is_space1 a).
  - destruct (is_space1 a); [reflexivity|]. now destruct (is_space2 a b).
  - destruct (is_space1 a); [reflexivity|].
    destruct (is_space2 a b); [reflexivity|]. now destruct (is_space3 a b c).
Qed.

Lemma space_char_nonempty (c : string) :
  is_space_char c = true -> exists a c', c = String a c'.
Proof. destruct c as [|a c']; [discriminate|eauto]. Qed.

Lemma all_space_cons (c q : string) :
  is_space_char c = true -> all_space (c ++ q)%string = all_space q.
Proof.
  intro Hc. rewrite all_space_step, (head_space_app c q Hc).
  destruct (space_char_nonempty c Hc) as (a & c' & ->). reflexivity.
Qed.

(** Induction along the whitespace characters at the front. *)
Lemma by_length (P : string -> Prop) :
  (forall s, (forall s', (String.length s' < String.length s)%nat -> P s')
             -> P s) ->
  forall s, P s.
Proof.
  intros Hstep s.
  assert (H : forall n s', (String.length s' < n)%nat -> P s').
  { induction n as [|n IH]; intros s' Hlt; [lia|].
    apply Hstep. intros s'' Hlt'. apply IH. lia. }
  apply (H (S (String.length s))). lia.
Qed.

Lemma all_space_app (a b : string) :
  all_space a = true -> all_space b = true ->
  all_space (a ++ b)%string = true.
Proof.
  revert a. apply (by_length (fun a => all_space a = true ->
                                       all_space b = true ->
                                       all_space (a ++ b)%string = true)).
  intros a IH Ha Hb. rewrite all_space_step in Ha.
  destruct a as [|x a']; [exact Hb|].
  destruct (head_space (String x a')) as [rest|] eqn:Hhead; [|discriminate].
  destruct (head_space_split _ _ Hhead) as (c & Heq & Hc & Hlt).
  rewrite Heq, append_assoc, (all_space_cons c _ Hc).
  now apply IH.
Qed.

Lemma all_space_char (c : string) :
  is_space_char c = true -> all_space c = true.
Proof.
  intro Hc. rewrite <- (append_nil_r c), (all_space_cons c "" Hc).
  reflexivity.
Qed.

Lemma lstrip_split (s : string) :
  exists l : string,
    s = (l ++ lstrip s)%string
    /\ all_space l = true
    /\ starts_with_space (lstrip s) = false.
Proof.
  revert s. apply by_length. intros s IH. rewrite lstrip_step.
  destruct (head_space s) as [rest|] eqn:Hhead.
  - destruct (head_space_split _ _ Hhead) as (c & Heq & Hc & Hlt).
    destruct (IH rest Hlt) as (l & Hl & Hsp & Hfront).
    exists (c ++ l)%string. repeat split.
    + rewrite append_assoc, <- Hl. exact Heq.
    + now rewrite (all_space_cons c l Hc).
    + exact Hfront.
  - exists EmptyString. repeat split. unfold starts_with_space.
    now rewrite Hhead.
Qed.

Lemma lstrip_blank (s : string) : all_space s = true -> lstrip s = "".
Proof.
  revert s. apply (by_length (fun s => all_space s = true -> lstrip s = "")).
  intros s IH Hs. rewrite all_space_step in Hs. rewrite lstrip_step.
  destruct s as [|x s']; [reflexivity|].
  destruct (head_space (String x s')) as [rest|] eqn:Hhead; [|discriminate].
  destruct (head_space_split _ _ Hhead) as (c & _ & _ & Hlt).
  now apply IH.
Qed.

Lemma no_space_at_the_end_of_nothing : ~ ends_with_space "".
Proof.
  intros (p & c & Heq & Hc).
  destruct (space_char_nonempty c Hc) as (a & c' & ->).
  destruct p; discriminate.
Qed.

Lemma rstrip_split (s : string) :
  exists r : string,
    s = (rstrip s ++ r)%string
    /\ all_space r = true
    /\ ~ ends_with_space (rstrip s).
Proof.
  induction s as [|a s (r & Heq & Hr & Hend)].
  - exists EmptyString. repeat split.
    apply no_space_at_the_end_of_nothing.
  - cbn [rstrip]. cbv zeta.
    destruct (is_space_char (String a (rstrip s))) eqn:Hc.
    + exists (String a s). repeat split.
      * rewrite Heq at 1.
        change (String a (rstrip s ++ r))
          with (String a (rstrip s) ++ r)%string.
        apply all_space_app; [now apply all_space_char|exact Hr].
      * apply no_space_at_the_end_of_nothing.
    + exists r. repeat split.
      * simpl. now rewrite <- Heq.
      * exact Hr.
      * intros (p & c & Hp & Hsp). destruct p as [|x p].
        -- simpl in Hp. subst c. congruence.
        -- simpl in Hp. injection Hp as _ Hp. apply Hend. now exists p, c.
Qed.

(** A string of whitespace that is not empty ends with a whitespace
    character. *)
Lemma all_space_end (r : string) :
  all_space r = true -> r <> "" -> ends_with_space r.
Proof.
  revert r. apply (by_length (fun r => all_space r = true -> r <> "" ->
                                       ends_with_space r)).
  intros r IH Hr Hne. rewrite all_space_step in Hr.
  destruct r as [|x r']; [contradiction|].
  destruct (head_space (String x r')) as [rest|] eqn:Hhead; [|discriminate].
  destruct (head_space_split _ _ Hhead) as (c & Heq & Hc & Hlt).
  destruct rest as [|y rest'].
  - exists EmptyString, c. rewrite Heq, append_nil_r. now split.
  - destruct (IH (String y rest') Hlt Hr) as (p & c' & Hp & Hc');
      [discriminate|].
    exists (c ++ p)%string, c'. split; [|exact Hc'].
    now rewrite Heq, Hp, append_assoc.
Qed.

Lemma rstrip_fixed (s : string) : ~ ends_with_space s -> rstrip s = s.
Proof.
  intro Hend. destruct (rstrip_split s) as (r & Heq & Hr & _).
  destruct r as [|x r'].
  - now rewrite append_nil_r in Heq.
  - exfalso. apply Hend.
    destruct (all_space_end (String x r') Hr) as (p & c & Hp & Hc);
      [discriminate|].
    exists (rstrip s ++ p)%string, c. split; [|exact Hc].
    now rewrite Heq at 1; rewrite Hp, append_assoc.
Qed.

Lemma lstrip_fixed (s : string) : starts_with_space s = false -> lstrip s = s.
Proof.
  unfold starts_with_space. intro H. rewrite lstrip_step.
  now destruct (head_space s).
Qed.

(** What [strip] returns sits inside its argument between two runs of
    whitespace, and neither starts nor ends with a whitespace
    character. *)
Lemma strip_split (s : string) :
  exists l r : string,
    s = (l ++ strip s ++ r)%string
    /\ all_space l = true /\ all_space r = true
    /\ starts_with_space (strip s) = false
    /\ ~ ends_with_space (strip s).
Proof.
  unfold strip.
  destruct (lstrip_split s) as (l & Hl & Hlsp & Hfront).
  destruct (rstrip_split (lstrip s)) as (r & Hr & Hrsp & Hend).
  exists l, r. repeat split; try assumption.
  - now rewrite <- Hr.
  - unfold starts_with_space in *.
    destruct (head_space (rstrip (lstrip s))) as [q|] eqn:Hq; [|reflexivity].
    destruct (head_space_split _ _ Hq) as (c & Hc & Hsp & _).
    rewrite Hr, Hc, append_assoc, (head_space_app c _ Hsp) in Hfront.
    discriminate.
Qed.

Lemma strip_blank (s : string) :
  strip s = EmptyString <-> all_space s = true.
Proof.
  split.
  - intro H. destruct (strip_split s) as (l & r & Heq & Hl & Hr & _).
    rewrite H in Heq. rewrite Heq. now apply all_space_app.
  - intro H. unfold strip. now rewrite (lstrip_blank s H).
Qed.

End StripFacts.

(** X4: [strip] removes a run of whitespace characters at each end and
    nothing else: its argument is a run of whitespace, the result, and a
    run of whitespace; the result neither starts nor ends with a
    whitespace character; stripping it again changes nothing. *)
Theorem strip_trims_both_ends (s : string) :
  (exists l r : string,
     s = (l ++ PyStr.strip s ++ r)%string
     /\ all_space l = true /\ all_space r = true)
  /\ starts_with_space (PyStr.strip s) = false
  /\ ~ ends_with_space (PyStr.strip s)
  /\ PyStr.strip (PyStr.strip s) = PyStr.strip s.
Proof.
  destruct (strip_split s) as (l & r & Heq & Hl & Hr & Hfront & Hend).
  split; [|split; [|split]].
  - exists l, r. now repeat split.
  - exact Hfront.
  - exact Hend.
  - unfold PyStr.strip at 1.
    rewrite (lstrip_fixed _ Hfront). now apply rstrip_fixed.
Qed.

(** ** The probe *)

Section ProbeFacts.

Context {F : Type} {RT : Runtime F}.


(** X3: when [ffprobe] has run, the probe raises the [ffprobe failed]
    error exactly when the standard output of [ffprobe] consists of
    whitespace characters only (the empty output included). *)
Theorem probe_fails_iff_blank
        (w : World F) (input_file : string) (cp : CompletedProcess) :
  ffprobe_run w [] input_file = Completed cp ->
  fst (get_video_duration w input_file [])
  = Raise (ValueError (ffprobe_failed_message (PyStr.strip (stderr cp))))
  <-> all_space (stdout cp) = true.
Proof.
  intro Hran. rewrite get_video_duration_run, Hran. cbn [fst].
  unfold duration_of. rewrite <- strip_blank.
  destruct (PyStr.strip (stdout cp)) as [|c raw]; cbn [PyStr.is_empty].
  - split; reflexivity.
  - split; [|discriminate].
    destruct (float_of_str (String c raw)); [discriminate|].
    intros [=].
Qed.

(** X6: an exception that ends a run and was not raised inside
    [subprocess.run] or [print] (the [ValueError] of the probe, the
    [ZeroDivisionError] or the [OverflowError] of the division) ends it
    right after the probe: no identifier was drawn, no line printed and
    no extraction requested. *)
Theorem own_errors_follow_the_probe
        (w : World F) (input_file : string) (split_count : Z) (e : exn) :
  fst (split_video w input_file split_count []) = Raise e ->
  (forall f : failure, e <> External f) ->
  snd (split_video w input_file split_count [])
  = [Spawn (Ffprobe input_file) (ffprobe_run w [] input_file)]
  /\ extractions (snd (split_video w input_file split_count [])) = []
  /\ draws (snd (split_video w input_file split_count [])) = [].
Proof.
  intros Hraise Hown.
  apply aborted_run. intros d t1 Hprobe.
  destruct (Z.eq_dec split_count 0) as [Hz|Hnz]; [now left|]. right.
  destruct (int_overflows split_count) eqn:Hconv; [reflexivity|].
  destruct (past_division w input_file split_count d t1 Hprobe Hnz Hconv)
    as (_ & _ & _ & Hext & _).
  destruct (Hext e Hraise) as [f ->]. now contradiction (Hown f).
Qed.

End ProbeFacts.

(** * The theorems at work *)

Section Examples.

Import Demo.

Lemma clip_probe :
  get_video_duration (RT := runtime) ten_minutes "clip.mkv" []
  = (Ok clip_duration, [probe_of_clip]).
Proof. reflexivity. Qed.

Lemma clip_probe64 :
  get_video_duration (RT := runtime64) ten_minutes64 "clip.mkv" []
  = (Ok (Binary64.of_Z 600), [probe_of_clip]).
Proof. reflexivity. Qed.

Lemma world_obliging {F : Type} (out err : string) (status raw : Z) :
  obliging (world (F := F) out err status raw).
Proof. split; intros; [eexists|]; reflexivity. Qed.

(** ** Naming *)

(** C1 as the specification words it fails on a [.mkv] input: the first
    output of the run is [clip_1234_1.mp4], not the name ending in the
    extension [.mkv] of the input. *)
Lemma output_path_keeps_extension_fails :
  exists e : extraction Q,
    nth_error (extractions (snd (clip_run 3))) 0 = Some e
    /\ draws (snd (clip_run 3)) = [1234]
    /\ OsPath.splitext "clip.mkv" = ("clip", ".mkv")
    /\ output_file e = "clip_1234_1.mp4"
    /\ output_file e
       <> (fst (OsPath.splitext "clip.mkv") ++ "_" ++ PyStr.str 1234 ++ "_"
             ++ PyStr.str (0 + 1) ++ snd (OsPath.splitext "clip.mkv"))%string.
Proof.
  eexists. split; [vm_compute; reflexivity|].
  split; [vm_compute; reflexivity|].
  split; [vm_compute; reflexivity|].
  split; [vm_compute; reflexivity|].
  vm_compute. discriminate.
Qed.

Lemma output_path_has_mp4_suffix_witness :
  exists rand_id : Z,
    draws (snd (clip_run 3)) = [rand_id]
    /\ "clip_1234_2.mp4"
       = (fst (OsPath.splitext "clip.mkv") ++ "_" ++ PyStr.str rand_id
            ++ "_" ++ PyStr.str (Z.of_nat 1 + 1) ++ ".mp4")%string
    /\ (fst (OsPath.splitext "clip.mkv")
          ++ snd (OsPath.splitext "clip.mkv"))%string = "clip.mkv".
Proof.
  apply (output_path_has_mp4_suffix (RT := runtime) ten_minutes "clip.mkv" 3 1
           {| start_time := 600000000 # 3000000; source := "clip.mkv";
              segment_duration := 600000000 # 3000000;
              output_file := "clip_1234_2.mp4" |}).
  vm_compute. reflexivity.
Defined.

(** ** Start times and lengths *)

(** C2 as the specification words it fails for a stream whose duration
    [ffprobe] reports as [inf], a positive [float]: with a count of 1 the
    run returns normally after one extraction whose start is
    [0 * inf], which is [nan] and not [0.0]. *)
Lemma single_segment_starts_at_zero_fails :
  get_video_duration (RT := runtime64) endless64 "clip.mkv" []
  = (Ok (S754_infinity false),
     [Spawn (Ffprobe "clip.mkv") (ffprobe_run endless64 [] "clip.mkv")])
  /\ fst (clip_run64 endless64 1) = Ok tt
  /\ exists e : extraction spec_float,
       extractions (snd (clip_run64 endless64 1)) = [e]
       /\ start_time e = S754_nan
       /\ start_time e <> S754_zero false
       /\ segment_duration e = S754_infinity false.
Proof.
  split; [reflexivity|]. split; [vm_compute; reflexivity|].
  eexists. split; [vm_compute; reflexivity|].
  cbn [start_time segment_duration].
  split; [reflexivity|]. split; [discriminate|reflexivity].
Qed.

Lemma start_times_are_multiples_witness :
  map start_time (extractions (snd (clip_run64 ten_minutes64 3)))
  = [S754_zero false; Binary64.of_Z 200; Binary64.of_Z 400]
  /\ map segment_duration (extractions (snd (clip_run64 ten_minutes64 3)))
     = [Binary64.of_Z 200; Binary64.of_Z 200; Binary64.of_Z 200].
Proof.
  assert (Hn : 0 < 3) by reflexivity.
  assert (Hconv : Binary64.overflows 3 = false) by reflexivity.
  destruct (start_times_are_multiples parse_double quote ten_minutes64
              "clip.mkv" 3 (Binary64.of_Z 600) [probe_of_clip]
              clip_probe64 Hn Hconv)
    as (_ & Hrun & _ & Hfigures & _).
  apply Hfigures; [reflexivity|reflexivity|].
  apply Hrun, world_obliging.
Defined.

Lemma segment_durations_sum_to_duration_witness :
  (Qsum (map segment_duration (extractions (snd (clip_run 3))))
   == clip_duration)%Q.
Proof.
  assert (Hn : 0 < 3) by reflexivity.
  destruct (segment_durations_sum_to_duration parse_decimal quote
              ten_minutes "clip.mkv" 3 clip_duration [probe_of_clip]
              clip_probe Hn)
    as (_ & _ & _ & Hrun & Hsum).
  apply Hsum, Hrun, world_obliging.
Defined.



(** ** Errors of the probe *)

Lemma empty_probe_output_aborts_witness :
  split_video (RT := runtime) blank_output "clip.mkv" 3 []
  = (Raise (ValueError
              (PyStr.of_bytes [195; 162; 197; 146]%nat
                 ++ " ffprobe failed. stderr: "
                 ++ "clip.mkv: Invalid data found when processing input")
              %string),
     [Spawn (Ffprobe "clip.mkv")
            (ffprobe_run (F := Q) blank_output [] "clip.mkv")])
  /\ extractions
       (snd (split_video (RT := runtime) blank_output "clip.mkv" 3 []))
     = [].
Proof.
  destruct (empty_probe_output_aborts (RT := runtime) blank_output
              "clip.mkv" 3 _ eq_refl eq_refl)
    as (_ & Hrun & Hnone).
  split; [exact Hrun|exact Hnone].
Defined.

(** C6 as the specification words it fails: the error for an output that
    is not a number and the error for an empty output are both of the
    class [ValueError]; a caller can tell them apart by their messages
    only. *)
Lemma format_error_has_its_own_class_fails :
  exists msg msg' : string,
    fst (get_video_duration (RT := runtime) no_duration "clip.mkv" [])
    = Raise (ValueError msg)
    /\ fst (get_video_duration (RT := runtime) unreadable "clip.mkv" [])
       = Raise (ValueError msg')
    /\ msg = "could not convert string to float: 'N/A'"
    /\ msg' = (PyStr.of_bytes [195; 162; 197; 146]%nat
                 ++ " ffprobe failed. stderr: "
                 ++ "clip.mkv: No such file or directory")%string
    /\ exn_class (ValueError msg) = exn_class (ValueError msg').
Proof.
  eexists. eexists.
  split; [vm_compute; reflexivity|]. split; [vm_compute; reflexivity|].
  split; [reflexivity|]. split; reflexivity.
Qed.

Lemma unparsable_probe_output_aborts_witness :
  fst (get_video_duration (RT := runtime) no_duration "clip.mkv" [])
  = Raise (ValueError "could not convert string to float: 'N/A'")
  /\ extractions
       (snd (split_video (RT := runtime) no_duration "clip.mkv" 3 []))
     = [].
Proof.
  assert (Hraw : PyStr.strip (line "N/A") <> EmptyString) by discriminate.
  assert (Hparse : parse_decimal (PyStr.strip (line "N/A")) = None)
    by reflexivity.
  destruct (unparsable_probe_output_aborts (RT := runtime) no_duration
              "clip.mkv" 3
              {| returncode := 0; stdout := line "N/A"; stderr := "" |}
              eq_refl Hraw Hparse)
    as (Hprobe & _ & _ & Hnone).
  split; [exact Hprobe|exact Hnone].
Defined.

(** ** The loop *)

(** C7 as the specification words it fails for a positive count too
    large for a [float]: the probe succeeds, the division raises
    [OverflowError], and the run ends there without an extraction and
    without a summary. *)
Lemma huge_count_runs_to_completion_fails :
  0 < 2 ^ 1024
  /\ get_video_duration (RT := runtime64) ten_minutes64 "clip.mkv" []
     = (Ok (Binary64.of_Z 600), [probe_of_clip])
  /\ clip_run64 ten_minutes64 (2 ^ 1024)
     = (Raise OverflowError, [probe_of_clip])
  /\ extractions (snd (clip_run64 ten_minutes64 (2 ^ 1024))) = [].
Proof.
  split; [reflexivity|]. split; [reflexivity|].
  split; vm_compute; reflexivity.
Qed.

Lemma extraction_status_is_ignored_witness :
  fst (split_video (RT := runtime) ten_minutes_failing "clip.mkv" 3 [])
  = Ok tt
  /\ List.length
       (extractions
          (snd (split_video (RT := runtime) ten_minutes_failing
                            "clip.mkv" 3 [])))
     = 3%nat
  /\ actions (snd (split_video (RT := runtime) ten_minutes_failing
                               "clip.mkv" 3 []))
     = actions (snd (clip_run 3)).
Proof.
  assert (Hn : 0 < 3) by reflexivity.
  destruct (extraction_status_is_ignored (RT := runtime)
              ten_minutes ten_minutes_failing
              "clip.mkv" 3 clip_duration [probe_of_clip]
              clip_probe Hn eq_refl eq_refl eq_refl
              (world_obliging _ _ _ _))
    as (Hres & _ & Hlen & _ & Hsame).
  split; [exact Hres|]. split; [exact Hlen|].
  apply Hsame, world_obliging.
Defined.

(** C8 as the specification words it fails for a run whose probe fails:
    the run ends before the identifier is drawn, so it is drawn zero
    times, not once. *)
Lemma identifier_drawn_once_fails :
  (exists msg : string,
     fst (split_video (RT := runtime) unreadable "clip.mkv" 3 [])
     = Raise (ValueError msg))
  /\ draws (snd (split_video (RT := runtime) unreadable "clip.mkv" 3 []))
     = []
  /\ draws (snd (clip_run 0)) = [].
Proof.
  split; [eexists; vm_compute; reflexivity|].
  split; vm_compute; reflexivity.
Qed.

Lemma run_identifier_is_shared_witness :
  exists rand_id : Z,
    draws (snd (clip_run 3)) = [rand_id]
    /\ 1000 <= rand_id <= 9999
    /\ NoDup (map output_file (extractions (snd (clip_run 3)))).
Proof.
  assert (Hn : 3 <> 0) by discriminate.
  destruct (run_identifier_is_shared (RT := runtime) ten_minutes "clip.mkv" 3
              clip_duration [probe_of_clip] clip_probe Hn eq_refl)
    as (rand_id & Hdraw & Hrange & _ & _ & _ & Hdistinct & _).
  exists rand_id. split; [exact Hdraw|]. split; [exact Hrange|exact Hdistinct].
Defined.

(** ** Counts that are not positive *)

Lemma zero_count_divides_after_probe_witness :
  clip_run 0 = (Raise ZeroDivisionError, [probe_of_clip])
  /\ extractions (snd (clip_run 0)) = [].
Proof.
  destruct (zero_count_divides_after_probe (RT := runtime) ten_minutes
              "clip.mkv"
              clip_duration [probe_of_clip] clip_probe)
    as (Hrun & _ & Hnone & _).
  split; [exact Hrun|exact Hnone].
Defined.

(** C10 as the specification words it fails twice.  For a negative count
    too large for a [float] the probe succeeds and the division raises
    [OverflowError].  For a clip of no length the probe succeeds with
    [0.0] and the division by [-2] gives [-0.0], which is not a negative
    number. *)
Lemma negative_count_raises_nothing_fails :
  (- 2 ^ 1024 < 0
   /\ get_video_duration (RT := runtime64) ten_minutes64 "clip.mkv" []
      = (Ok (Binary64.of_Z 600), [probe_of_clip])
   /\ clip_run64 ten_minutes64 (- 2 ^ 1024)
      = (Raise OverflowError, [probe_of_clip]))
  /\ (fst (get_video_duration (RT := runtime64) empty_clip64 "clip.mkv" [])
      = Ok (S754_zero false)
      /\ (forall t : trace spec_float,
            truediv (RT := runtime64) (S754_zero false) (-2) t
            = (Ok (S754_zero true), t))
      /\ ~ (Binary64.value (S754_zero true) < 0)%Q).
Proof.
  split; [split; [reflexivity|split; [reflexivity|vm_compute; reflexivity]]|].
  split; [reflexivity|]. split; [intro t; reflexivity|].
  vm_compute. discriminate.
Qed.

Lemma negative_count_completes_witness :
  exists rand_id : Z,
    clip_run64 ten_minutes64 (-2)
    = (Ok tt,
       [probe_of_clip; Randint 1000 9999 rand_id;
        Print (PyStr.of_bytes [195; 162; 197; 147; 226; 128; 166]%nat
                 ++ " Done. Created -2 segments with ID "
                 ++ PyStr.str rand_id ++ ".")%string
              None])
    /\ Binary64.sign_bit (Binary64.div (Binary64.of_Z 600) (Binary64.of_Z (-2)))
       = true
    /\ extractions (snd (clip_run64 ten_minutes64 (-2))) = [].
Proof.
  assert (Hn : -2 < 0) by reflexivity.
  assert (Hconv : Binary64.overflows (-2) = false) by reflexivity.
  assert (Hprint : forall (t : trace spec_float) (l : string),
             print_run ten_minutes64 t l = None) by reflexivity.
  destruct (negative_count_completes parse_double quote ten_minutes64
              "clip.mkv" (-2) (Binary64.of_Z 600) [probe_of_clip]
              clip_probe64 Hn Hconv Hprint)
    as (rand_id & Hrun & _ & _ & Hsign & _ & Hnone).
  exists rand_id. split; [exact Hrun|].
  split; [exact (proj1 (Hsign _ _ eq_refl))|exact Hnone].
Defined.

(** ** Further properties *)


Lemma probe_fails_iff_blank_witness :
  fst (get_video_duration (RT := runtime) blank_output "clip.mkv" [])
  = Raise (ValueError
             (ffprobe_failed_message
                "clip.mkv: Invalid data found when processing input"))
  <-> all_space (String "194"%char (String "160"%char (String "010"%char "")))
      = true.
Proof.
  apply (probe_fails_iff_blank (RT := runtime) blank_output "clip.mkv"
           {| returncode := 0;
              stdout := String "194"%char
                          (String "160"%char (String "010"%char ""));
              stderr :=
                line "clip.mkv: Invalid data found when processing input" |}).
  reflexivity.
Defined.

Lemma own_errors_follow_the_probe_witness :
  snd (split_video (RT := runtime) no_duration "clip.mkv" 3 [])
  = [Spawn (Ffprobe "clip.mkv")
           (ffprobe_run (F := Q) no_duration [] "clip.mkv")]
  /\ extractions
       (snd (split_video (RT := runtime) no_duration "clip.mkv" 3 []))
     = []
  /\ draws (snd (split_video (RT := runtime) no_duration "clip.mkv" 3 []))
     = [].
Proof.
  apply (own_errors_follow_the_probe (RT := runtime) no_duration
           "clip.mkv" 3
           (ValueError "could not convert string to float: 'N/A'")).
  - vm_compute. reflexivity.
  - intros f Hf. discriminate Hf.
Defined.

Lemma input_is_never_an_output_witness :
  source (job (RT := runtime) "videos/clip.mp4" "videos/clip" 1234
              (clip_duration / inject_Z 3)%Q 1)
  = "videos/clip.mp4"
  /\ output_file (job (RT := runtime) "videos/clip.mp4" "videos/clip" 1234
                      (clip_duration / inject_Z 3)%Q 1)
     <> "videos/clip.mp4".
Proof.
  apply (input_is_never_an_output (RT := runtime) ten_minutes
           "videos/clip.mp4" 3).
  vm_compute. right. left. reflexivity.
Defined.

Lemma outputs_are_beside_the_input_witness :
  exists dir name_in name_out : string,
    "videos/clip.mp4" = (dir ++ name_in)%string
    /\ "videos/clip_1234_2.mp4" = (dir ++ name_out)%string
    /\ occurs "/"%char name_in = false
    /\ occurs "/"%char name_out = false.
Proof.
  apply (outputs_are_beside_the_input (RT := runtime) ten_minutes
           "videos/clip.mp4" 3
           (job (RT := runtime) "videos/clip.mp4" "videos/clip" 1234
                (clip_duration / inject_Z 3)%Q 1)).
  vm_compute. right. left. reflexivity.
Defined.

Lemma different_identifiers_different_names_witness :
  output_file (job (RT := runtime) "clip.mkv" "clip" 1234
                   (clip_duration / inject_Z 3)%Q 0)
  <> output_file (job (RT := runtime) "clip.mkv" "clip" 1235
                      (clip_duration / inject_Z 2)%Q 0).
Proof.
  apply (different_identifiers_different_names (RT := runtime)
           ten_minutes (ten_minutes_drawing 235) "clip.mkv" 3 2
           _ _ 1234 1235).
  - vm_compute. left. reflexivity.
  - vm_compute. left. reflexivity.
  - reflexivity.
  - reflexivity.
  - discriminate.
Defined.

Lemma windows_cover_the_duration_witness :
  exists e : extraction spec_float,
    nth_error (extractions (snd (clip_run64 ten_minutes64 3))) 2 = Some e
    /\ (Binary64.value (start_time e) + Binary64.value (segment_duration e)
        == Binary64.value (Binary64.of_Z 600))%Q.
Proof.
  assert (Hn : 0 < 3) by reflexivity.
  assert (Hconv : Binary64.overflows 3 = false) by reflexivity.
  assert (Hd : (0 <= Binary64.value (Binary64.of_Z 600))%Q)
    by (vm_compute; discriminate).
  assert (Hdiv :
    (inject_Z 3
     * Binary64.value (Binary64.div (Binary64.of_Z 600) (Binary64.of_Z 3))
     == Binary64.value (Binary64.of_Z 600))%Q)
    by (vm_compute; reflexivity).
  assert (Hexact :
    forall i : Z, 0 <= i < 3 ->
      (Binary64.value
         (Binary64.mul (Binary64.of_Z i)
            (Binary64.div (Binary64.of_Z 600) (Binary64.of_Z 3)))
       == inject_Z i
          * Binary64.value
              (Binary64.div (Binary64.of_Z 600) (Binary64.of_Z 3)))%Q).
  { intros i Hi.
    assert (Hcases : i = 0 \/ i = 1 \/ i = 2) by lia.
    destruct Hcases as [-> | [-> | ->]]; vm_compute; reflexivity. }
  destruct (windows_cover_the_duration parse_double quote ten_minutes64
              "clip.mkv" 3 (Binary64.of_Z 600) [probe_of_clip]
              clip_probe64 Hn Hconv eq_refl Hd Hdiv Hexact)
    as (_ & _ & Hrun & Hlast).
  apply Hlast, Hrun, world_obliging.
Defined.

End Examples.
